(** * Spinel auto-setup script ([setup.py]): a shallow embedding

    The script creates a virtual environment under [~/.spinel/venv],
    compares a list of required packages with what [pip list] reports,
    installs the deficit (first with [uv], then with [pip]) and checks two
    environment variables.

    Python text is modelled by [string]; every character of the texts the
    script inspects (package names, [pip list] tables) is ASCII, and the
    case and white-space tables below are Python's restricted to ASCII.
    Characters above 127 are carried along untouched.  Effects (file
    system reads, directory creation, process creation, console output)
    live in a state-and-exception monad over an abstract machine state. *)

From Stdlib Require Import String Ascii List Bool Arith Lia DecimalString.
From stdpp Require Import base option list gmap strings.

Open Scope string_scope.

(** ** Python string primitives *)

Module PyStr.

(** [str.lower] on one ASCII character. *)
Definition is_upper (c : ascii) : bool :=
  ((65 <=? nat_of_ascii c) && (nat_of_ascii c <=? 90))%nat.

Definition lower_char (c : ascii) : ascii :=
  if is_upper c then ascii_of_nat (nat_of_ascii c + 32) else c.

Fixpoint lower (s : string) : string :=
  match s with
  | EmptyString => EmptyString
  | String c s' => String (lower_char c) (lower s')
  end.

(** [str.replace(old, new)] for a non-empty [old]: occurrences are
    replaced left to right and do not overlap.  [skip] counts the
    characters of a matched occurrence that are still to be dropped. *)
Fixpoint replace_from (old new : string) (skip : nat) (s : string) : string :=
  match s with
  | EmptyString => EmptyString
  | String c s' =>
      match skip with
      | S k => replace_from old new k s'
      | O =>
          if String.prefix old s
          then new +:+ replace_from old new (String.length old - 1) s'
          else String c (replace_from old new 0 s')
      end
  end.

Definition replace (old new s : string) : string := replace_from old new 0 s.

(** [str.split(sep)] for a non-empty [sep].  The result of
    [split_from] is the field being read and the fields after it, so
    the list Python returns is never empty. *)
Fixpoint split_from (sep : string) (skip : nat) (s : string) : string * list string :=
  match s with
  | EmptyString => (EmptyString, [])
  | String c s' =>
      match skip with
      | S k => split_from sep k s'
      | O =>
          if String.prefix sep s
          then let '(f, fs) := split_from sep (String.length sep - 1) s' in
               (EmptyString, f :: fs)
          else let '(f, fs) := split_from sep 0 s' in
               (String c f, fs)
      end
  end.

Definition split (sep s : string) : list string :=
  let '(f, fs) := split_from sep 0 s in f :: fs.

(** White space as [str.strip()] and [str.split()] see it (ASCII part
    of the table: TAB, LF, VT, FF, CR, FS, GS, RS, US and space). *)
Definition is_space (c : ascii) : bool :=
  let n := nat_of_ascii c in
  (((9 <=? n) && (n <=? 13)) || ((28 <=? n) && (n <=? 32)))%nat.

Fixpoint lstrip (s : string) : string :=
  match s with
  | EmptyString => EmptyString
  | String c s' => if is_space c then lstrip s' else s
  end.

Fixpoint rstrip (s : string) : string :=
  match s with
  | EmptyString => EmptyString
  | String c s' =>
      match rstrip s' with
      | EmptyString => if is_space c then EmptyString else String c EmptyString
      | r => String c r
      end
  end.

Definition strip (s : string) : string := rstrip (lstrip s).

(** [str.split()] without argument: runs of white space separate the
    fields and no field is empty. *)
Definition push_field (w : string) (ws : list string) : list string :=
  match w with
  | EmptyString => ws
  | _ => w :: ws
  end.

Fixpoint split_ws_from (s : string) : string * list string :=
  match s with
  | EmptyString => (EmptyString, [])
  | String c s' =>
      let '(w, ws) := split_ws_from s' in
      if is_space c then (EmptyString, push_field w ws) else (String c w, ws)
  end.

Definition split_ws (s : string) : list string :=
  let '(w, ws) := split_ws_from s in push_field w ws.

(** [s[-n:]] for [n > 0]: the last [n] characters, the whole text when
    it is shorter. *)
Fixpoint drop_chars (n : nat) (s : string) : string :=
  match n, s with
  | O, _ => s
  | S k, EmptyString => EmptyString
  | S k, String _ s' => drop_chars k s'
  end.

Definition last_chars (n : nat) (s : string) : string :=
  drop_chars (String.length s - n) s.

(** [str(n)] for a non-negative integer. *)
Definition of_nat (n : nat) : string := NilZero.string_of_uint (Nat.to_uint n).

(** [sub in s]. *)
Fixpoint contains (sub s : string) : bool :=
  String.prefix sub s ||
  match s with
  | EmptyString => false
  | String _ s' => contains sub s'
  end.

(** [bool(s)]: a text is true when it is not empty. *)
Definition truthy (s : string) : bool :=
  match s with
  | EmptyString => false
  | _ => true
  end.

(** [s.endswith(suffix)]. *)
Definition ends_with (suffix s : string) : bool :=
  String.eqb (last_chars (String.length suffix) s) suffix
  && (String.length suffix <=? String.length s)%nat.

End PyStr.

(** ** Paths ([pathlib])

    A path is an anchor (the root or drive, possibly empty) and its
    components; [str] joins them with the separator of the host's
    flavour. *)

Record Path := { anchor : string; parts : list string }.

Definition path_join (p : Path) (name : string) : Path :=
  {| anchor := anchor p; parts := parts p ++ [name] |}.

Notation "p // name" := (path_join p name) (at level 40, left associativity).

(** [Path.parent]: a path without components is its own parent. *)
Definition path_parent (p : Path) : Path :=
  {| anchor := anchor p; parts := removelast (parts p) |}.

Fixpoint join_with (sep : string) (l : list string) : string :=
  match l with
  | [] => EmptyString
  | [x] => x
  | x :: l' => x +:+ sep +:+ join_with sep l'
  end.

Definition path_str (sep : string) (p : Path) : string :=
  match anchor p, parts p with
  | EmptyString, [] => "."
  | a, l => a +:+ join_with sep l
  end.

(** ** Outcomes of the operating system *)

(** A raised exception of class [Exception] (a time-out, a missing
    binary, an operating-system error); [exn_text] is what [str(e)]
    gives.  Interrupts delivered from outside ([KeyboardInterrupt]) are
    not part of the model. *)
Record exn := { exn_class : string; exn_text : string }.

(** [subprocess.CompletedProcess], with output captured as text. *)
Record CompletedProcess :=
  { returncode : Z; stdout : string; stderr : string }.

(** What a run leaves behind, in order of occurrence. *)
Inductive event :=
| EvPrint (line : string)
| EvMkdir (dir : string)
| EvSpawn (cmd : list string).

(** The host: what the script reads from its interpreter and what the
    machine answers.  [W] is the state of the machine (file system,
    installed tools, packages). *)
Class Host (W : Type) := {
  platform : string;                     (* sys.platform *)
  executable : string;                   (* sys.executable *)
  home : Path;                           (* Path.home() *)
  path_exists : W -> string -> bool;     (* Path.exists() *)
  mkdir_parents : W -> string -> exn + W;
    (* Path.mkdir(parents=True, exist_ok=True) *)
  which : W -> string -> option string;  (* shutil.which *)
  subprocess_run : W -> list string -> (exn + CompletedProcess) * W;
    (* subprocess.run(cmd, capture_output=True, text=True, timeout=300):
       an exception (TimeoutExpired, FileNotFoundError, ...) or a
       completed process *)
  environ_get : W -> string -> option string   (* os.environ.get *)
}.

(** ** The monad of the script: state, trace and exceptions *)

Inductive result (A : Type) :=
| Ok (a : A)
| Raise (e : exn).
Arguments Ok {A} a.
Arguments Raise {A} e.

Record state (W : Type) := { world : W; trace : list event }.
Arguments world {W} s.
Arguments trace {W} s.
Arguments Build_state {W} world trace.

Definition M (W A : Type) : Type := state W -> result A * state W.

Definition ret {W A} (a : A) : M W A := fun st => (Ok a, st).

Definition bind {W A B} (m : M W A) (k : A -> M W B) : M W B :=
  fun st =>
    match m st with
    | (Ok a, st') => k a st'
    | (Raise e, st') => (Raise e, st')
    end.

(** [try: m  except Exception as e: h e]. *)
Definition try_except {W A} (m : M W A) (h : exn -> M W A) : M W A :=
  fun st =>
    match m st with
    | (Ok a, st') => (Ok a, st')
    | (Raise e, st') => h e st'
    end.

Definition emit {W} (e : event) : M W unit :=
  fun st => (Ok tt, {| world := world st; trace := trace st ++ [e] |}).

Notation "'do' x <- m ; k" := (bind m (fun x => k))
  (at level 10, x name, m at level 100, k at level 200).
Notation "'do' ' pat <- m ; k" := (bind m (fun x => match x with pat => k end))
  (at level 10, pat pattern, m at level 100, k at level 200).
Notation "'exec' m ; k" := (bind m (fun _ => k))
  (at level 10, m at level 100, k at level 200).

(** ** The script *)

Definition NL : string := String (ascii_of_nat 10) EmptyString.

Definition REQUIREMENTS : list string :=
  [ "pymatgen>=2024.0.0";
    "mp-api>=0.41.0";
    "emmet-core";
    "ase>=3.22";
    "hyperspy>=2.0";
    "kikuchipy";
    "pycalphad";
    "scheil";
    "phonopy";
    "matgl";
    "diffpy.structure";
    "Dans_Diffraction";
    "tifffile";
    "jcamp";
    "brukeropusreader";
    "spc-spectra";
    "cellpy";
    "galvani";
    "impedance.py";
    "PyBaMM" ].

(** The local function [normalize] of [install_missing]. *)
Definition split_head (sep s : string) : string :=
  default EmptyString (PyStr.split sep s !! 0%nat).

Definition normalize (name : string) : string :=
  PyStr.replace "." "_"
    (PyStr.replace "-" "_"
       (split_head "=="
          (split_head "<="
             (split_head ">=" (PyStr.lower name))))).

(** The key [check_installed] stores for the first token of a line. *)
Definition installed_key (token : string) : string :=
  PyStr.replace "." "_" (PyStr.replace "-" "_" (PyStr.lower token)).

(** [bool(uv)] for the answer of [shutil.which]. *)
Definition found (uv : option string) : bool :=
  match uv with
  | Some p => PyStr.truthy p
  | None => false
  end.

Section Script.

Context {W : Type} {host : Host W}.

Definition sep : string :=
  if String.eqb platform "win32" then "\" else "/".

Definition str (p : Path) : string := path_str sep p.

Definition VENV_DIR : Path := home // ".spinel" // "venv".

(** [print(line)] on a standard output that accepts the text; a
    standard output whose encoding lacks a character of the line would
    raise, which is outside the model. *)
Definition print (line : string) : M W unit := emit (EvPrint line).

(** [p.exists()] when the test answers; an error of the operating
    system other than "not found" would raise, which is outside the
    model. *)
Definition exists_ (p : Path) : M W bool :=
  fun st => (Ok (path_exists (world st) (str p)), st).

Definition mkdir (p : Path) : M W unit :=
  fun st =>
    match mkdir_parents (world st) (str p) with
    | inl e => (Raise e, st)
    | inr w' => (Ok tt, {| world := w'; trace := trace st ++ [EvMkdir (str p)] |})
    end.

Definition shutil_which (name : string) : M W (option string) :=
  fun st => (Ok (which (world st) name), st).

Definition os_environ_get (key : string) : M W (option string) :=
  fun st => (Ok (environ_get (world st) key), st).

(** The call [subprocess.run(...)]: one process is created, and the
    call returns a completed process or raises. *)
Definition subprocess_run_m (cmd : list string) : M W CompletedProcess :=
  fun st =>
    let '(r, w') := subprocess_run (world st) cmd in
    let st' := {| world := w'; trace := trace st ++ [EvSpawn cmd] |} in
    match r with
    | inl e => (Raise e, st')
    | inr cp => (Ok cp, st')
    end.

(** [run(cmd)]. *)
Definition run (cmd : list string) : M W (bool * string) :=
  try_except
    (do result <- subprocess_run_m cmd;
     ret (Z.eqb (returncode result) 0, stdout result +:+ stderr result))
    (fun e => ret (false, exn_text e)).

Definition get_pip : string :=
  if String.eqb platform "win32"
  then str (VENV_DIR // "Scripts" // "pip")
  else str (VENV_DIR // "bin" // "pip").

Definition get_python : string :=
  if String.eqb platform "win32"
  then str (VENV_DIR // "Scripts" // "python")
  else str (VENV_DIR // "bin" // "python").

Definition venv_fallback : M W (bool * string) :=
  do '(ok, out) <- run [executable; "-m"; "venv"; str VENV_DIR];
  if ok then ret (true, "created with venv")
  else ret (false, "Failed to create venv: " +:+ out).

Definition ensure_venv : M W (bool * string) :=
  do posix <- exists_ (VENV_DIR // "bin" // "python");
  do present <- (if posix then ret true
                 else exists_ (VENV_DIR // "Scripts" // "python.exe"));
  if present then ret (true, "venv exists")
  else
    exec print "Creating Spinel virtual environment at ~/.spinel/venv ...";
    exec mkdir (path_parent VENV_DIR);
    do uv <- shutil_which "uv";
    if found uv then
      do '(ok, out) <- run [default EmptyString uv; "venv"; str VENV_DIR];
      if ok then ret (true, "created with uv") else venv_fallback
    else venv_fallback.

(** The loop of [check_installed] over the lines after the header;
    [parts[0]] is an indexing that raises when out of range. *)
Definition add_line (installed : gset string) (line : string)
  : result (gset string) :=
  let parts := PyStr.split_ws line in
  match parts with
  | [] => Ok installed
  | _ =>
      match parts !! 0%nat with
      | Some name => Ok ({[ installed_key name ]} ∪ installed)
      | None => Raise {| exn_class := "IndexError";
                         exn_text := "list index out of range" |}
      end
  end.

Fixpoint add_lines (installed : gset string) (lines : list string)
  : result (gset string) :=
  match lines with
  | [] => Ok installed
  | line :: rest =>
      match add_line installed line with
      | Ok installed' => add_lines installed' rest
      | Raise e => Raise e
      end
  end.

Definition parse_listing (out : string) : result (gset string) :=
  add_lines ∅ (drop 2 (PyStr.split NL (PyStr.strip out))).

Definition lift {A} (r : result A) : M W A := fun st => (r, st).

Definition check_installed : M W (gset string) :=
  let pip := get_pip in
  do '(ok, out) <- run [pip; "list"; "--format=columns"];
  if negb ok then ret ∅ else lift (parse_listing out).

(** The list comprehension of [install_missing]. *)
Definition missing_of (required : list string) (installed : gset string)
  : list string :=
  List.filter (fun pkg => negb (bool_decide (normalize pkg ∈ installed))) required.

Definition pip_fallback (pip : string) (missing : list string)
  : M W (bool * string) :=
  do '(ok, out) <- run ([pip; "install"] ++ missing);
  if ok then
    ret (true, "installed " +:+ PyStr.of_nat (length missing) +:+ " packages with pip")
  else ret (false, "Installation failed: " +:+ PyStr.last_chars 500 out).

(** [install_missing], with the module-level list it reads as a
    parameter. *)
Definition install_missing_of (required : list string) (installed : gset string)
  : M W (bool * string) :=
  let pip := get_pip in
  let missing := missing_of required installed in
  match missing with
  | [] => ret (true, "all packages installed")
  | _ =>
      exec print ("Installing " +:+ PyStr.of_nat (length missing)
                  +:+ " missing packages...");
      do uv <- shutil_which "uv";
      if found uv then
        do '(ok, out) <- run ([default EmptyString uv; "pip"; "install";
                               "--python"; get_python] ++ missing);
        if ok then
          ret (true, "installed " +:+ PyStr.of_nat (length missing)
                     +:+ " packages with uv")
        else pip_fallback pip missing
      else pip_fallback pip missing
  end.

Definition install_missing (installed : gset string) : M W (bool * string) :=
  install_missing_of REQUIREMENTS installed.

Definition check_api_keys : M W (list string * list string) :=
  let issues := [] in
  do mp_key <- os_environ_get "MP_API_KEY";
  let issues :=
    if negb (found mp_key) then
      (issues ++ ["MP_API_KEY not set. Get a free key at https://next-gen.materialsproject.org "
                  +:+ "(Dashboard → API Key), then: export MP_API_KEY=your_key"])%list
    else issues in
  let notes := [] in
  do nomad <- os_environ_get "NOMAD_TOKEN";
  let notes :=
    if negb (found nomad) then
      (notes ++ ["NOMAD_TOKEN not set (optional — needed only for private NOMAD data)"])%list
    else notes in
  ret (issues, notes).

(** The status lines for the credentials: one warning per issue, or the
    line that all is configured; then one line per note. *)
Definition credential_lines (issues notes : list string) : list string :=
  (match issues with
   | [] => ["✓ API keys configured"]
   | _ => map (fun issue => "⚠ " +:+ issue) issues
   end
   ++ map (fun note => "  ℹ " +:+ note) notes)%list.

(** The report that ends [main]. *)
Definition report (status : list string) : M W unit :=
  exec print (join_with NL status);
  exec print (NL +:+ "Spinel venv: " +:+ str VENV_DIR);
  exec print ("Python: " +:+ get_python);
  print ("To activate manually: source " +:+ str VENV_DIR +:+ "/bin/activate").

Definition main : M W unit :=
  let status := [] in
  do '(ok, msg) <- ensure_venv;
  if negb ok then
    exec print ("✗ Venv setup failed: " +:+ msg);
    print "  Try manually: python -m venv ~/.spinel/venv"
  else
    let status := (status ++ ["✓ Venv: " +:+ msg])%list in
    do installed <- check_installed;
    do '(ok, msg) <- install_missing installed;
    do status <-
      (if negb ok then
         exec print ("⚠ Package installation issue: " +:+ msg);
         exec print ("  Try manually: " +:+ get_pip
                     +:+ " install pymatgen mp-api ase hyperspy");
         ret status
       else ret (status ++ ["✓ Packages: " +:+ msg])%list);
    do '(issues, notes) <- check_api_keys;
    let status := (status ++ credential_lines issues notes)%list in
    report status.

End Script.

(** ** Notions used by the statements *)

(** The comparator tokens the normalisation knows. *)
Definition comparators : list string := [">="; "<="; "=="].

Definition starts_comparator (s : string) : bool :=
  String.prefix ">=" s || String.prefix "<=" s || String.prefix "==" s.

(** A text cut at the first place where one of the comparator tokens
    starts. *)
Fixpoint truncate_at_comparator (s : string) : string :=
  match s with
  | EmptyString => EmptyString
  | String c s' =>
      if starts_comparator s then EmptyString
      else String c (truncate_at_comparator s')
  end.

Fixpoint map_chars (f : ascii -> ascii) (s : string) : string :=
  match s with
  | EmptyString => EmptyString
  | String c s' => String (f c) (map_chars f s')
  end.

(** ['-'] and ['.'] become the canonical separator ['_']. *)
Definition canon_sep (c : ascii) : ascii :=
  if Ascii.eqb c "-" then "_"%char
  else if Ascii.eqb c "." then "_"%char
  else c.

(** The normalised bare name of a requirement as the specification words
    it: lower case, cut at the first comparator token, separators made
    canonical. *)
Definition bare_name (spec : string) : string :=
  map_chars canon_sep (truncate_at_comparator (PyStr.lower spec)).

Definition is_separator (c : ascii) : bool :=
  Ascii.eqb c "-" || Ascii.eqb c "." || Ascii.eqb c "_".

(** Two characters that a naming convention may exchange: the same
    letter in either case, or two separators. *)
Definition same_char (c d : ascii) : bool :=
  Ascii.eqb (PyStr.lower_char c) (PyStr.lower_char d)
  || (is_separator c && is_separator d).

(** Two names of one package: equal up to case and choice of separator,
    position by position. *)
Fixpoint same_name (a b : string) : bool :=
  match a, b with
  | EmptyString, EmptyString => true
  | String c a', String d b' => same_char c d && same_name a' b'
  | _, _ => false
  end.

(** A text of ASCII characters, as every package name is.  On such text
    [PyStr.lower] is Python's [str.lower], character for character. *)
Fixpoint is_ascii (s : string) : bool :=
  match s with
  | EmptyString => true
  | String c s' => (nat_of_ascii c <? 128)%nat && is_ascii s'
  end.

(** A text in which none of ['<'], ['>'], ['='] occurs, as every package
    name is. *)
Fixpoint no_comparator_char (s : string) : bool :=
  match s with
  | EmptyString => true
  | String c s' =>
      negb (Ascii.eqb c "<" || Ascii.eqb c ">" || Ascii.eqb c "=")
      && no_comparator_char s'
  end.

(** A requirement for [name]: the name alone, or the name followed by a
    comparator token and a version. *)
Definition requirement_of (name spec : string) : bool :=
  String.eqb spec name
  || existsb (fun tok => String.prefix (name +:+ tok) spec) comparators.

(** No upper-case letter, no ['-'] and no ['.']. *)
Fixpoint canonical_key (s : string) : bool :=
  match s with
  | EmptyString => true
  | String c s' =>
      negb (PyStr.is_upper c) && negb (Ascii.eqb c "-") && negb (Ascii.eqb c ".")
      && canonical_key s'
  end.

(** A run of [subprocess.run] that is not a success: an exception or a
    non-zero exit status. *)
Definition failed (r : exn + CompletedProcess) : Prop :=
  match r with
  | inl _ => True
  | inr cp => returncode cp <> 0%Z
  end.

(** The commands of the processes created, in order. *)
Fixpoint spawned (evs : list event) : list (list string) :=
  match evs with
  | [] => []
  | EvSpawn cmd :: evs' => cmd :: spawned evs'
  | _ :: evs' => spawned evs'
  end.

(** What [run] makes of the answer of [subprocess.run]. *)
Definition outcome_of (r : exn + CompletedProcess) : bool * string :=
  match r with
  | inl e => (false, exn_text e)
  | inr cp => (Z.eqb (returncode cp) 0, stdout cp +:+ stderr cp)
  end.

Section Commands.

Context {W : Type} {host : Host W}.

(** The state after one process has been created for [cmd]. *)
Definition after_spawn (cmd : list string) (st : state W) : state W :=
  {| world := snd (subprocess_run (world st) cmd);
     trace := trace st ++ [EvSpawn cmd] |}.

Definition after_print (line : string) (st : state W) : state W :=
  {| world := world st; trace := trace st ++ [EvPrint line] |}.

(** The state in which [ensure_venv] looks for the fast tool. *)
Definition creating (w1 : W) (st : state W) : state W :=
  {| world := w1;
     trace := trace st
              ++ [EvPrint "Creating Spinel virtual environment at ~/.spinel/venv ...";
                  EvMkdir (str (path_parent VENV_DIR))] |}.

Definition installing (missing : list string) (st : state W) : state W :=
  after_print ("Installing " +:+ PyStr.of_nat (length missing)
               +:+ " missing packages...") st.

(** The interpreter of the environment is there, at either place. *)
Definition venv_present (st : state W) : bool :=
  path_exists (world st) (str (VENV_DIR // "bin" // "python"))
  || path_exists (world st) (str (VENV_DIR // "Scripts" // "python.exe")).

(** The command lines of the fast tool and of the fallback. *)
Definition venv_fast_cmd (uv : string) : list string :=
  [uv; "venv"; str VENV_DIR].

Definition venv_fallback_cmd : list string :=
  [executable; "-m"; "venv"; str VENV_DIR].

Definition install_fast_cmd (missing : list string) (uv : string) : list string :=
  [uv; "pip"; "install"; "--python"; get_python] ++ missing.

Definition install_fallback_cmd (missing : list string) : list string :=
  [get_pip; "install"] ++ missing.

(** An install command for [missing]: the fallback's or the fast
    tool's. *)
Definition installs (missing : list string) (cmd : list string) : Prop :=
  cmd = install_fallback_cmd missing
  \/ exists uv, cmd = install_fast_cmd missing uv.

Definition list_cmd : list string := [get_pip; "list"; "--format=columns"].

(** The fast path does not deliver from state [st]: the tool is not on
    the search path (and nothing happens), or it is run and reports a
    failure, which leaves state [st']. *)
Definition fast_path_fails (fast : string -> list string) (st st' : state W)
  : Prop :=
  (found (which (world st) "uv") = false /\ st' = st)
  \/ (exists uv out,
        which (world st) "uv" = Some uv /\ PyStr.truthy uv = true
        /\ run (fast uv) st = (Ok (false, out), st')).

(** What the two operations answer from the outcome of the fallback. *)
Definition venv_answer (r : bool * string) : bool * string :=
  if fst r then (true, "created with venv")
  else (false, "Failed to create venv: " +:+ snd r).

Definition install_answer (missing : list string) (r : bool * string)
  : bool * string :=
  if fst r then
    (true, "installed " +:+ PyStr.of_nat (length missing) +:+ " packages with pip")
  else (false, "Installation failed: " +:+ PyStr.last_chars 500 (snd r)).

(** The two steps of [main] that reconcile the packages. *)
Definition reconcile : M W (bool * string) :=
  do installed <- check_installed;
  install_missing installed.

End Commands.

(** ** A scripted machine

    A machine whose answers are fixed in advance; its state is the list
    of the commands it has run, latest first. *)

Record Scenario := {
  sc_platform : string;
  sc_home : Path;
  sc_files : list string;
  sc_uv : option string;
  sc_answer : list string -> exn + CompletedProcess;
  sc_env : string -> option string
}.

Definition scripted (sc : Scenario) : Host (list (list string)) := {|
  platform := sc_platform sc;
  executable := "/usr/bin/python3";
  home := sc_home sc;
  path_exists := fun _ p => existsb (String.eqb p) (sc_files sc);
  mkdir_parents := fun w _ => inr w;
  which := fun _ name => if String.eqb name "uv" then sc_uv sc else None;
  subprocess_run := fun w cmd => (sc_answer sc cmd, cmd :: w);
  environ_get := fun _ key => sc_env sc key
|}.

Definition exit_with (code : Z) (out : string) : exn + CompletedProcess :=
  inr {| returncode := code; stdout := out; stderr := EmptyString |}.

Definition posix_home : Path := {| anchor := "/"; parts := ["home"; "ada"] |}.
Definition windows_home : Path := {| anchor := "C:\"; parts := ["Users"; "ada"] |}.

Definition start : state (list (list string)) := {| world := []; trace := [] |}.

(** A Linux machine on which the environment is already there. *)
Definition ready_linux : Host (list (list string)) :=
  scripted {| sc_platform := "linux"; sc_home := posix_home;
              sc_files := ["/home/ada/.spinel/venv/bin/python"];
              sc_uv := None;
              sc_answer := fun _ => exit_with 0 EmptyString;
              sc_env := fun _ => None |}.

(** A Windows machine on which the environment is already there. *)
Definition ready_windows : Host (list (list string)) :=
  scripted {| sc_platform := "win32"; sc_home := windows_home;
              sc_files := ["C:\Users\ada\.spinel\venv\Scripts\python.exe"];
              sc_uv := Some "C:\bin\uv.exe";
              sc_answer := fun _ => exit_with 1 "unused";
              sc_env := fun _ => None |}.

(** A fresh Linux machine: [uv] is installed but every [uv] command
    fails, every other command succeeds with an empty output; both
    credentials are set. *)
Definition fresh_linux : Host (list (list string)) :=
  scripted {| sc_platform := "linux"; sc_home := posix_home;
              sc_files := [];
              sc_uv := Some "/usr/bin/uv";
              sc_answer := fun cmd =>
                match cmd with
                | "/usr/bin/uv" :: _ => exit_with 2 "uv: error"
                | _ => exit_with 0 EmptyString
                end;
              sc_env := fun key =>
                if String.eqb key "MP_API_KEY" then Some "k3y"
                else if String.eqb key "NOMAD_TOKEN" then Some "t0ken"
                else None |}.

(** A Linux machine without [uv] on which [pip list] cannot be run. *)
Definition broken_pip_linux : Host (list (list string)) :=
  scripted {| sc_platform := "linux"; sc_home := posix_home;
              sc_files := ["/home/ada/.spinel/venv/bin/python"];
              sc_uv := None;
              sc_answer := fun cmd =>
                match cmd with
                | [_; "list"; _] =>
                    inl {| exn_class := "FileNotFoundError";
                           exn_text := "[Errno 2] No such file or directory" |}
                | _ => exit_with 0 EmptyString
                end;
              sc_env := fun key =>
                if String.eqb key "NOMAD_TOKEN" then Some EmptyString else None |}.

(** The key of every requirement of the script. *)
Definition all_keys : gset string := list_to_set (map normalize REQUIREMENTS).

(** ** Notions for the further properties *)

(** The characters ['<'], ['>'] and ['='] are fixed by [f], and nothing
    else is sent to them. *)
Definition comparator_neutral (f : ascii -> ascii) : Prop :=
  forall c x,
    x = "<"%char \/ x = ">"%char \/ x = "="%char ->
    Ascii.eqb x (f c) = Ascii.eqb x c.

(** A text without white space. *)
Fixpoint no_space (s : string) : bool :=
  match s with
  | EmptyString => true
  | String c s' => negb (PyStr.is_space c) && no_space s'
  end.

(** A text made of white space only. *)
Fixpoint all_space (s : string) : bool :=
  match s with
  | EmptyString => true
  | String c s' => PyStr.is_space c && all_space s'
  end.

(** A token: a non-empty text without white space. *)
Definition is_token (s : string) : bool := PyStr.truthy s && no_space s.

(** A text without line break. *)
Fixpoint one_line (s : string) : bool :=
  match s with
  | EmptyString => true
  | String c s' => negb (Ascii.eqb c (ascii_of_nat 10)) && one_line s'
  end.

(** A text whose first character is not white space. *)
Definition starts_visible (s : string) : bool :=
  match s with
  | EmptyString => false
  | String c _ => negb (PyStr.is_space c)
  end.

(** The lines, each ended by a line break. *)
Fixpoint unlines (ls : list string) : string :=
  match ls with
  | [] => EmptyString
  | l :: ls' => l +:+ NL +:+ unlines ls'
  end.

(** A row of the table of [pip list]: the name, a space, and the rest
    of the line (padding and version). *)
Definition row_line (row : string * string) : string :=
  fst row +:+ " " +:+ snd row.

(** The table: two header lines, then the rows. *)
Definition listing (h1 h2 : string) (rows : list (string * string)) : string :=
  unlines (h1 :: h2 :: map row_line rows).

Definition good_line (l : string) : bool := starts_visible l && one_line l.

Definition good_row (row : string * string) : bool :=
  is_token (fst row) && one_line (snd row).

(** The lines with the white space at the end of the last one removed. *)
Fixpoint rstrip_last (ls : list string) : list string :=
  match ls with
  | [] => []
  | [l] => [PyStr.rstrip l]
  | l :: ls' => l :: rstrip_last ls'
  end.

Section FurtherCommands.

Context {W : Type} {host : Host W}.

(** A command that creates the environment: the fallback's or the fast
    tool's. *)
Definition creates (cmd : list string) : Prop :=
  cmd = venv_fallback_cmd \/ exists uv, cmd = venv_fast_cmd uv.

(** [st'] is [st] after the events [evs]. *)
Definition extends (st st' : state W) (evs : list event) : Prop :=
  trace st' = (trace st ++ evs)%list.

(** The last four lines of a successful run. *)
Definition report_events (status : list string) : list event :=
  [ EvPrint (join_with NL status);
    EvPrint (NL +:+ "Spinel venv: " +:+ str VENV_DIR);
    EvPrint ("Python: " +:+ get_python);
    EvPrint ("To activate manually: source " +:+ str VENV_DIR +:+ "/bin/activate") ].

End FurtherCommands.

(** A Linux machine with the environment in place, without [uv] and
    without network: listing works and shows [pip] alone, every
    installation fails. *)
Definition offline_linux : Host (list (list string)) :=
  scripted {| sc_platform := "linux"; sc_home := posix_home;
              sc_files := ["/home/ada/.spinel/venv/bin/python"];
              sc_uv := None;
              sc_answer := fun cmd =>
                match cmd with
                | [_; "list"; _] =>
                    exit_with 0 (listing "Package Version" "------- -------"
                                   [("pip", "24.0")])
                | _ => exit_with 1 "ERROR: Could not find a version that satisfies the requirement"
                end;
              sc_env := fun _ => None |}.

(** A Linux machine in its steady state: the environment exists, every
    requirement is listed as installed, both credentials are set. *)
Definition settled_linux : Host (list (list string)) :=
  scripted {| sc_platform := "linux"; sc_home := posix_home;
              sc_files := ["/home/ada/.spinel/venv/bin/python"];
              sc_uv := Some "/usr/bin/uv";
              sc_answer := fun cmd =>
                match cmd with
                | [_; "list"; _] =>
                    exit_with 0 (listing "Package Version" "------- -------"
                                   (map (fun pkg => (normalize pkg, "1.0"))
                                      REQUIREMENTS))
                | _ => exit_with 1 "unexpected"
                end;
              sc_env := fun key =>
                if String.eqb key "MP_API_KEY" then Some "k3y"
                else if String.eqb key "NOMAD_TOKEN" then Some "t0ken"
                else None |}.

(** A fresh Linux machine on which [uv] is installed and works. *)
Definition uv_linux : Host (list (list string)) :=
  scripted {| sc_platform := "linux"; sc_home := posix_home;
              sc_files := [];
              sc_uv := Some "/usr/bin/uv";
              sc_answer := fun _ => exit_with 0 "done";
              sc_env := fun _ => None |}.

(** A fresh Linux machine without [uv] on which every command fails. *)
Definition broken_venv_linux : Host (list (list string)) :=
  scripted {| sc_platform := "linux"; sc_home := posix_home;
              sc_files := [];
              sc_uv := None;
              sc_answer := fun _ => exit_with 1 "Error: ensurepip is not available";
              sc_env := fun _ => None |}.

(** A Linux machine whose [pip] lists one package and writes a notice
    to standard error. *)
Definition noisy_pip_linux : Host (list (list string)) :=
  scripted {| sc_platform := "linux"; sc_home := posix_home;
              sc_files := ["/home/ada/.spinel/venv/bin/python"];
              sc_uv := None;
              sc_answer := fun _ =>
                inr {| returncode := 0;
                       stdout := listing "Package Version" "------- -------"
                                   [("ase", "3.22.1")];
                       stderr := unlines [row_line ("WARNING:", "pip is old")] |};
              sc_env := fun _ => None |}.

(** ** Facts about the string primitives *)

Section StringFacts.

Lemma prefix_cons a t c s :
  String.prefix (String a t) (String c s)
  = Ascii.eqb a c && String.prefix t s.
Proof.
  simpl. destruct (ascii_dec a c) as [->|Hne].
  - now rewrite Ascii.eqb_refl.
  - apply Ascii.eqb_neq in Hne. now rewrite Hne.
Qed.

Lemma prefix_nil s : String.prefix EmptyString s = true.
Proof. now destruct s. Qed.

(** Replacing a one-character text by another is a map. *)
Lemma replace_char c d s :
  PyStr.replace (String c EmptyString) (String d EmptyString) s
  = map_chars (fun x => if Ascii.eqb c x then d else x) s.
Proof.
  unfold PyStr.replace. induction s as [|x s IH]; [reflexivity|].
  cbn [PyStr.replace_from map_chars].
  rewrite prefix_cons, prefix_nil, andb_true_r.
  destruct (Ascii.eqb c x); cbn; now rewrite IH.
Qed.

(** The text before the first occurrence of [tok]. *)
Lemma split_head_cons tok c s :
  split_head tok (String c s)
  = if String.prefix tok (String c s) then EmptyString
    else String c (split_head tok s).
Proof.
  unfold split_head, PyStr.split.
  cbn [PyStr.split_from].
  destruct (String.prefix tok (String c s)).
  - now destruct (PyStr.split_from tok _ s).
  - now destruct (PyStr.split_from tok 0 s).
Qed.

(** Cutting at a two-character token that ends in ['='] and does not
    start with it leaves a leading ['='] where it was. *)
Lemma split_head_keeps_eq a s :
  a <> "="%char ->
  String.prefix "=" (split_head (String a "=") s) = String.prefix "=" s.
Proof.
  intros Ha. destruct s as [|d s]; [reflexivity|].
  rewrite split_head_cons, !prefix_cons, !prefix_nil, !andb_true_r.
  destruct (Ascii.eqb_spec a d) as [->|Hne]; cbn [andb].
  - destruct (Ascii.eqb_spec "="%char d) as [<-|Hd]; [congruence|].
    destruct (String.prefix "=" s); [reflexivity|].
    rewrite prefix_cons. now destruct (Ascii.eqb_spec "="%char d).
  - now rewrite prefix_cons, prefix_nil, andb_true_r.
Qed.

(** The three successive cuts of [normalize] stop at the first place
    where any comparator token starts. *)
Lemma split_chain s :
  split_head "==" (split_head "<=" (split_head ">=" s))
  = truncate_at_comparator s.
Proof.
  induction s as [|c s IH]; [reflexivity|].
  cbn [truncate_at_comparator]. unfold starts_comparator.
  rewrite (split_head_cons ">=").
  destruct (String.prefix ">=" (String c s)) eqn:Hge; [reflexivity|].
  cbn [orb]. rewrite (split_head_cons "<=").
  assert (Hle : String.prefix "<=" (String c (split_head ">=" s))
                = String.prefix "<=" (String c s)).
  { rewrite !(prefix_cons "<"). f_equal.
    now apply split_head_keeps_eq. }
  rewrite Hle.
  destruct (String.prefix "<=" (String c s)); [reflexivity|].
  cbn [orb]. rewrite (split_head_cons "==").
  assert (Hee : String.prefix "==" (String c (split_head "<=" (split_head ">=" s)))
                = String.prefix "==" (String c s)).
  { rewrite !(prefix_cons "="). f_equal.
    rewrite split_head_keeps_eq by discriminate.
    now apply split_head_keeps_eq. }
  rewrite Hee.
  destruct (String.prefix "==" (String c s)); [reflexivity|].
  now rewrite IH.
Qed.

Lemma map_chars_compose f g s :
  map_chars f (map_chars g s) = map_chars (fun c => f (g c)) s.
Proof. induction s as [|c s IH]; cbn; [reflexivity|now rewrite IH]. Qed.

Lemma map_chars_ext f g s :
  (forall c, f c = g c) -> map_chars f s = map_chars g s.
Proof. intros E. induction s as [|c s IH]; cbn; [reflexivity|now rewrite E, IH]. Qed.

Lemma canon_sep_replace s :
  PyStr.replace "." "_" (PyStr.replace "-" "_" s) = map_chars canon_sep s.
Proof.
  rewrite !replace_char, map_chars_compose. apply map_chars_ext.
  intros c. unfold canon_sep.
  rewrite (Ascii.eqb_sym c "-"), (Ascii.eqb_sym c ".").
  destruct (Ascii.eqb_spec "-"%char c) as [<-|]; reflexivity.
Qed.

(** [normalize] computes the bare name of the specification. *)
Lemma normalize_bare_name spec : normalize spec = bare_name spec.
Proof. unfold normalize, bare_name. now rewrite split_chain, canon_sep_replace. Qed.

Lemma installed_key_map token :
  installed_key token = map_chars canon_sep (PyStr.lower token).
Proof. apply canon_sep_replace. Qed.

End StringFacts.

(** ** Package names and their keys *)

Section Names.

Lemma prefix_app p s :
  String.prefix p s = true -> exists rest, s = p +:+ rest.
Proof.
  revert s. induction p as [|a p IH]; intros s H.
  - now exists s.
  - destruct s as [|c s]; [discriminate|].
    rewrite prefix_cons in H. apply andb_true_iff in H as [Hc Hp].
    apply Ascii.eqb_eq in Hc as ->.
    destruct (IH _ Hp) as [rest ->]. now exists rest.
Qed.

Lemma app_cons c a b : String c a +:+ b = String c (a +:+ b).
Proof. reflexivity. Qed.

Lemma app_nil_l s : EmptyString +:+ s = s.
Proof. reflexivity. Qed.

Lemma app_assoc_str a b c : (a +:+ b) +:+ c = a +:+ (b +:+ c).
Proof.
  induction a as [|x a IH]; [reflexivity|].
  now rewrite !app_cons, IH.
Qed.

Lemma lower_app a b : PyStr.lower (a +:+ b) = PyStr.lower a +:+ PyStr.lower b.
Proof.
  induction a as [|x a IH]; [reflexivity|].
  rewrite app_cons. cbn [PyStr.lower]. now rewrite app_cons, IH.
Qed.

Lemma lower_char_comparator c :
  (Ascii.eqb (PyStr.lower_char c) "<" || Ascii.eqb (PyStr.lower_char c) ">"
   || Ascii.eqb (PyStr.lower_char c) "=")
  = (Ascii.eqb c "<" || Ascii.eqb c ">" || Ascii.eqb c "=").
Proof. destruct c as [[] [] [] [] [] [] [] []]; reflexivity. Qed.

Lemma lower_no_comparator s :
  no_comparator_char (PyStr.lower s) = no_comparator_char s.
Proof.
  induction s as [|c s IH]; cbn; [reflexivity|].
  now rewrite lower_char_comparator, IH.
Qed.

Lemma separator_not_comparator c :
  is_separator c = true ->
  (Ascii.eqb c "<" || Ascii.eqb c ">" || Ascii.eqb c "=") = false.
Proof. destruct c as [[] [] [] [] [] [] [] []]; vm_compute; congruence. Qed.

Lemma same_char_comparator c d :
  same_char c d = true ->
  (Ascii.eqb c "<" || Ascii.eqb c ">" || Ascii.eqb c "=")
  = (Ascii.eqb d "<" || Ascii.eqb d ">" || Ascii.eqb d "=").
Proof.
  unfold same_char. intros H. apply orb_true_iff in H as [H|H].
  - apply Ascii.eqb_eq in H.
    rewrite <- (lower_char_comparator c), <- (lower_char_comparator d).
    now rewrite H.
  - apply andb_true_iff in H as [Hc Hd].
    now rewrite !separator_not_comparator.
Qed.

Lemma same_name_no_comparator a b :
  same_name a b = true -> no_comparator_char a = no_comparator_char b.
Proof.
  revert b. induction a as [|c a IH]; intros [|d b] H; try discriminate.
  - reflexivity.
  - cbn in H. apply andb_true_iff in H as [Hc Hab]. cbn.
    now rewrite (same_char_comparator _ _ Hc), (IH _ Hab).
Qed.

Lemma separator_canon c :
  is_separator c = true -> canon_sep (PyStr.lower_char c) = "_"%char.
Proof. destruct c as [[] [] [] [] [] [] [] []]; vm_compute; congruence. Qed.

Lemma same_char_key c d :
  same_char c d = true ->
  canon_sep (PyStr.lower_char c) = canon_sep (PyStr.lower_char d).
Proof.
  unfold same_char. intros H. apply orb_true_iff in H as [H|H].
  - apply Ascii.eqb_eq in H. now rewrite H.
  - apply andb_true_iff in H as [Hc Hd]. now rewrite !separator_canon.
Qed.

Lemma same_name_key a b :
  same_name a b = true -> installed_key a = installed_key b.
Proof.
  rewrite !installed_key_map.
  revert b. induction a as [|c a IH]; intros [|d b] H; try discriminate.
  - reflexivity.
  - cbn in H. apply andb_true_iff in H as [Hc Hab]. cbn.
    now rewrite (same_char_key _ _ Hc), (IH _ Hab).
Qed.

(** A text without comparator characters is cut exactly where what
    follows it is. *)
Lemma truncate_app x rest :
  no_comparator_char x = true ->
  truncate_at_comparator (x +:+ rest) = x +:+ truncate_at_comparator rest.
Proof.
  induction x as [|c x IH]; intros H; [reflexivity|].
  cbn in H. apply andb_true_iff in H as [Hc Hx].
  rewrite !app_cons. cbn [truncate_at_comparator].
  assert (Hs : starts_comparator (String c (x +:+ rest)) = false).
  { unfold starts_comparator. rewrite !prefix_cons.
    rewrite (Ascii.eqb_sym ">" c), (Ascii.eqb_sym "<" c), (Ascii.eqb_sym "=" c).
    apply negb_true_iff in Hc.
    apply orb_false_iff in Hc as [Hc He]. apply orb_false_iff in Hc as [Hl Hg].
    now rewrite Hl, Hg, He. }
  now rewrite Hs, IH.
Qed.

Lemma app_nil_str s : s +:+ EmptyString = s.
Proof. induction s as [|c s IH]; [reflexivity|now rewrite app_cons, IH]. Qed.

Lemma truncate_plain x :
  no_comparator_char x = true -> truncate_at_comparator x = x.
Proof.
  intros H. rewrite <- (app_nil_str x) at 1.
  rewrite truncate_app by assumption. apply app_nil_str.
Qed.

Lemma normalize_plain name :
  no_comparator_char name = true -> normalize name = installed_key name.
Proof.
  intros H. rewrite normalize_bare_name, installed_key_map. unfold bare_name.
  now rewrite truncate_plain by now rewrite lower_no_comparator.
Qed.

Lemma normalize_requirement name spec :
  no_comparator_char name = true ->
  requirement_of name spec = true ->
  normalize spec = installed_key name.
Proof.
  intros Hn Hr. unfold requirement_of in Hr.
  apply orb_true_iff in Hr as [Hr|Hr].
  - apply String.eqb_eq in Hr as ->. now apply normalize_plain.
  - apply existsb_exists in Hr as (tok & Htok & Hp).
    apply prefix_app in Hp as [version ->].
    rewrite normalize_bare_name, installed_key_map. unfold bare_name.
    rewrite app_assoc_str, lower_app, truncate_app
      by now rewrite lower_no_comparator.
    rewrite lower_app.
    assert (Hcut : truncate_at_comparator (PyStr.lower tok +:+ PyStr.lower version)
                   = EmptyString).
    { cbn in Htok.
      destruct Htok as [<-|[<-|[<-|[]]]];
        cbn [PyStr.lower]; rewrite !app_cons, app_nil_l;
        cbn [truncate_at_comparator]; unfold starts_comparator;
        rewrite !prefix_cons, !prefix_nil; reflexivity. }
    now rewrite Hcut, app_nil_str.
Qed.

End Names.

(** C2. For package names written in ASCII, as package names are: a
    requirement and an installed name that denote the same package up to
    letter case and choice of separator (['-'], ['.'], ['_']) get the
    same key: [normalize] of the requirement equals the key that
    [check_installed] stores for the installed name, and equals
    [normalize] of the installed name. *)
Theorem normalization_equivalence (name installed spec : string) :
  is_ascii name = true ->
  is_ascii installed = true ->
  same_name name installed = true ->
  no_comparator_char installed = true ->
  requirement_of name spec = true ->
  normalize spec = installed_key installed
  /\ normalize spec = normalize installed.
Proof.
  intros _ _ Hsame Hplain Hreq.
  assert (Hname : no_comparator_char name = true)
    by now rewrite (same_name_no_comparator _ _ Hsame).
  assert (Hkey : normalize spec = installed_key installed).
  { rewrite (normalize_requirement name spec Hname Hreq).
    now apply same_name_key. }
  split; [exact Hkey|].
  now rewrite Hkey, normalize_plain.
Qed.

(** The theorem at "Dans_Diffraction>=1.0" and "dans-diffraction". *)
Lemma normalization_equivalence_witness :
  is_ascii "Dans_Diffraction" = true
  /\ is_ascii "dans-diffraction" = true
  /\ same_name "Dans_Diffraction" "dans-diffraction" = true
  /\ no_comparator_char "dans-diffraction" = true
  /\ requirement_of "Dans_Diffraction" "Dans_Diffraction>=1.0" = true
  /\ normalize "Dans_Diffraction>=1.0" = installed_key "dans-diffraction"
  /\ normalize "Dans_Diffraction>=1.0" = normalize "dans-diffraction".
Proof.
  split; [reflexivity|]. split; [reflexivity|].
  split; [reflexivity|]. split; [reflexivity|]. split; [reflexivity|].
  apply (normalization_equivalence "Dans_Diffraction" "dans-diffraction"
           "Dans_Diffraction>=1.0"); reflexivity.
Defined.

(** ** The command runner *)

Section Runner.

Context {W : Type} {host : Host W}.

Lemma run_eq cmd (st : state W) :
  run cmd st = (Ok (outcome_of (fst (subprocess_run (world st) cmd))),
                after_spawn cmd st).
Proof.
  unfold run, try_except, bind, subprocess_run_m, after_spawn, ret.
  destruct (subprocess_run (world st) cmd) as [[e|cp] w']; reflexivity.
Qed.

(** C7. [run] never raises: whatever [subprocess.run] does, the call
    returns a pair.  After a completed process the flag says whether
    the exit status was zero and the detail is standard output followed
    by standard error; after an exception (time-out, binary not found)
    the flag is false and the detail is the text of the exception.
    One process is created either way. *)
Theorem run_never_raises cmd (st : state W) :
  exists ok detail,
    run cmd st = (Ok (ok, detail), after_spawn cmd st)
    /\ match fst (subprocess_run (world st) cmd) with
       | inr cp =>
           (ok = true <-> returncode cp = 0%Z)
           /\ detail = stdout cp +:+ stderr cp
       | inl e => ok = false /\ detail = exn_text e
       end.
Proof.
  rewrite run_eq.
  destruct (fst (subprocess_run (world st) cmd)) as [e|cp]; cbn [outcome_of].
  - exists false, (exn_text e). auto.
  - exists (Z.eqb (returncode cp) 0), (stdout cp +:+ stderr cp).
    split; [reflexivity|]. split; [apply Z.eqb_eq|reflexivity].
Qed.

Lemma run_failed cmd (st : state W) :
  failed (fst (subprocess_run (world st) cmd)) ->
  exists out, run cmd st = (Ok (false, out), after_spawn cmd st).
Proof.
  intros Hf. rewrite run_eq.
  destruct (fst (subprocess_run (world st) cmd)) as [e|cp]; cbn in *.
  - now exists (exn_text e).
  - exists (stdout cp +:+ stderr cp).
    apply Z.eqb_neq in Hf. now rewrite Hf.
Qed.

End Runner.

(** ** The environment provisioner *)

Section Provisioner.

Context {W : Type} {host : Host W}.

Lemma ensure_venv_present (st : state W) :
  venv_present st = true -> ensure_venv st = (Ok (true, "venv exists"), st).
Proof.
  unfold venv_present, ensure_venv, bind, exists_, ret. intros H.
  destruct (path_exists (world st) (str (VENV_DIR // "bin" // "python")));
    [reflexivity|].
  cbn in H. now rewrite H.
Qed.

Lemma ensure_venv_absent (st : state W) :
  venv_present st = false ->
  ensure_venv st
  = (exec print "Creating Spinel virtual environment at ~/.spinel/venv ...";
     exec mkdir (path_parent VENV_DIR);
     do uv <- shutil_which "uv";
     if found uv then
       do '(ok, out) <- run (venv_fast_cmd (default EmptyString uv));
       if ok then ret (true, "created with uv") else venv_fallback
     else venv_fallback) st.
Proof.
  unfold venv_present. intros H. apply orb_false_iff in H as [H1 H2].
  unfold ensure_venv at 1. unfold bind at 1 2, exists_, ret.
  now rewrite H1, H2.
Qed.

End Provisioner.

(** C1 (as the specification states it). With the interpreter present
    at [bin/python], [ensure_venv] does not answer with the message
    "already exists". *)
Lemma ensure_venv_message_differs :
  @venv_present _ ready_linux start = true
  /\ fst (@ensure_venv _ ready_linux start) <> Ok (true, "already exists").
Proof. split; [reflexivity|]. vm_compute. discriminate. Qed.

(** C1 (amended). When the interpreter is present at [bin/python] or at
    [Scripts/python.exe] under the base directory, [ensure_venv] returns
    [(True, "venv exists")] and leaves the machine and the trace as they
    were: no process is created, nothing is printed.  Hence two calls in
    succession both return that pair, and the state after them is still
    the initial one. *)
Theorem ensure_venv_idempotent {W : Type} {host : Host W} (st : state W) :
  venv_present st = true ->
  ensure_venv st = (Ok (true, "venv exists"), st)
  /\ (do first <- ensure_venv; do second <- ensure_venv; ret (first, second)) st
     = (Ok ((true, "venv exists"), (true, "venv exists")), st).
Proof.
  intros H. pose proof (ensure_venv_present st H) as E.
  split; [exact E|].
  unfold bind. now rewrite E, E.
Qed.

(** The theorem on a Windows machine whose environment exists. *)
Lemma ensure_venv_idempotent_witness :
  @venv_present _ ready_windows start = true
  /\ @ensure_venv _ ready_windows start = (Ok (true, "venv exists"), start)
  /\ (do first <- @ensure_venv _ ready_windows;
      do second <- @ensure_venv _ ready_windows;
      ret (first, second)) start
     = (Ok ((true, "venv exists"), (true, "venv exists")), start).
Proof.
  split; [reflexivity|].
  apply (@ensure_venv_idempotent _ ready_windows start). reflexivity.
Defined.

(** ** The package reconciler *)

Section Reconciler.

Context {W : Type} {host : Host W}.

Lemma venv_fallback_eq (st : state W) :
  venv_fallback st
  = (Ok (venv_answer (outcome_of (fst (subprocess_run (world st) venv_fallback_cmd)))),
     after_spawn venv_fallback_cmd st).
Proof.
  unfold venv_fallback, bind, venv_answer, venv_fallback_cmd.
  rewrite run_eq.
  destruct (outcome_of _) as [[] out]; reflexivity.
Qed.

Lemma pip_fallback_eq missing (st : state W) :
  pip_fallback get_pip missing st
  = (Ok (install_answer missing
           (outcome_of (fst (subprocess_run (world st) (install_fallback_cmd missing))))),
     after_spawn (install_fallback_cmd missing) st).
Proof.
  unfold pip_fallback, bind, install_answer, install_fallback_cmd.
  rewrite run_eq.
  destruct (outcome_of _) as [[] out]; reflexivity.
Qed.

(** The part of [ensure_venv] that creates the environment, and the
    part of [install_missing] that installs: the fast tool when it is
    found, the fallback otherwise or after a failure. *)
Lemma fast_then_fallback {A} (fast : string -> list string)
      (done_fast : A) (fallback : M W A) (st : state W) :
  (do uv <- shutil_which "uv";
   if found uv then
     do '(ok, out) <- run (fast (default EmptyString uv));
     if ok then ret done_fast else fallback
   else fallback) st
  = match which (world st) "uv" with
    | Some uv =>
        if PyStr.truthy uv then
          if fst (outcome_of (fst (subprocess_run (world st) (fast uv))))
          then (Ok done_fast, after_spawn (fast uv) st)
          else fallback (after_spawn (fast uv) st)
        else fallback st
    | None => fallback st
    end.
Proof.
  unfold bind at 1. unfold shutil_which.
  destruct (which (world st) "uv") as [uv|]; cbn [found default]; [|reflexivity].
  destruct (PyStr.truthy uv); [|reflexivity].
  unfold bind. rewrite run_eq.
  destruct (outcome_of _) as [[] out]; reflexivity.
Qed.

Lemma fast_fails_fallback {A} fast (done_fast : A) fallback (st st2 : state W) :
  fast_path_fails fast st st2 ->
  (do uv <- shutil_which "uv";
   if found uv then
     do '(ok, out) <- run (fast (default EmptyString uv));
     if ok then ret done_fast else fallback
   else fallback) st
  = fallback st2.
Proof.
  intros Hf. rewrite fast_then_fallback.
  destruct Hf as [[Hnf ->]|(uv & out & Hw & Ht & Hrun)].
  - destruct (which (world st) "uv") as [uv|]; [|reflexivity].
    cbn in Hnf. now rewrite Hnf.
  - rewrite Hw, Ht. rewrite run_eq in Hrun.
    injection Hrun as Ho <-.
    now rewrite Ho.
Qed.

Lemma fallback_only_failure {A} fast (done_fast : A) fallback
      (st st' : state W) (r : result A) :
  (do uv <- shutil_which "uv";
   if found uv then
     do '(ok, out) <- run (fast (default EmptyString uv));
     if ok then ret done_fast else fallback
   else fallback) st = (r, st') ->
  r <> Ok done_fast ->
  exists st2, fast_path_fails fast st st2 /\ fallback st2 = (r, st').
Proof.
  rewrite fast_then_fallback. intros H Hr.
  destruct (which (world st) "uv") as [uv|] eqn:Hw.
  - destruct (PyStr.truthy uv) eqn:Ht.
    + destruct (outcome_of _) as [[] out] eqn:Ho; cbn [fst] in H.
      * injection H as <- _. congruence.
      * exists (after_spawn (fast uv) st). split; [|exact H].
        right. exists uv, out. repeat split; try assumption.
        now rewrite run_eq, Ho.
    + exists st. split; [|exact H]. left. split; [|reflexivity].
      now rewrite Hw.
  - exists st. split; [|exact H]. left. now rewrite Hw.
Qed.

Lemma install_missing_nothing required installed (st : state W) :
  missing_of required installed = [] ->
  install_missing_of required installed st
  = (Ok (true, "all packages installed"), st).
Proof. unfold install_missing_of. now intros ->. Qed.

Lemma install_missing_some required installed (st : state W) :
  missing_of required installed <> [] ->
  let missing := missing_of required installed in
  install_missing_of required installed st
  = (do uv <- shutil_which "uv";
     if found uv then
       do '(ok, out) <- run (install_fast_cmd missing (default EmptyString uv));
       if ok then
         ret (true, "installed " +:+ PyStr.of_nat (length missing)
                    +:+ " packages with uv")
       else pip_fallback get_pip missing
     else pip_fallback get_pip missing)
      (after_print ("Installing " +:+ PyStr.of_nat (length missing)
                    +:+ " missing packages...") st).
Proof.
  intros Hne. cbv zeta. unfold install_missing_of.
  destruct (missing_of required installed) as [|pkg rest]; [congruence|].
  reflexivity.
Qed.

Lemma missing_of_In required installed pkg :
  In pkg (missing_of required installed)
  <-> In pkg required /\ normalize pkg ∉ installed.
Proof.
  unfold missing_of. rewrite filter_In, negb_true_iff, bool_decide_eq_false.
  reflexivity.
Qed.

Lemma missing_of_nil required installed :
  missing_of required installed = []
  <-> forall pkg, In pkg required -> normalize pkg ∈ installed.
Proof.
  split.
  - intros E pkg Hin.
    destruct (decide (normalize pkg ∈ installed)) as [|Hn]; [assumption|].
    assert (Hm : In pkg (missing_of required installed))
      by now apply missing_of_In.
    rewrite E in Hm. destruct Hm.
  - intros H. destruct (missing_of required installed) as [|pkg rest] eqn:E;
      [reflexivity|].
    assert (Hm : In pkg (missing_of required installed))
      by (rewrite E; now left).
    apply missing_of_In in Hm as [Hin Hn]. destruct Hn. now apply H.
Qed.

End Reconciler.

(** ** Fast tool first, fallback second *)

Section Fallback.

Context {W : Type} {host : Host W}.

Lemma ensure_venv_creating (st : state W) w1 :
  venv_present st = false ->
  mkdir_parents (world st) (str (path_parent VENV_DIR)) = inr w1 ->
  ensure_venv st
  = (do uv <- shutil_which "uv";
     if found uv then
       do '(ok, out) <- run (venv_fast_cmd (default EmptyString uv));
       if ok then ret (true, "created with uv") else venv_fallback
     else venv_fallback) (creating w1 st).
Proof.
  intros Ha Hm. rewrite (ensure_venv_absent st Ha).
  unfold bind at 1 2. unfold print, emit, mkdir. cbn [world trace].
  rewrite Hm. unfold creating. now rewrite <- app_assoc.
Qed.

Lemma venv_answer_failure r msg :
  venv_answer r = (false, msg) ->
  fst r = false /\ msg = "Failed to create venv: " +:+ snd r.
Proof. unfold venv_answer. destruct r as [[] out]; cbn; now intros [= <-]. Qed.

Lemma install_answer_failure missing r msg :
  install_answer missing r = (false, msg) ->
  fst r = false /\ msg = "Installation failed: " +:+ PyStr.last_chars 500 (snd r).
Proof. unfold install_answer. destruct r as [[] out]; cbn; now intros [= <-]. Qed.

End Fallback.

(** C5. In [ensure_venv] (environment absent, parent directory created)
    and in [install_missing] (something is missing): when [uv] is not
    found on the search path, or is run and reports a failure, the
    fallback command is run next and the pair returned is computed from
    the outcome of the fallback alone; and whenever the pair returned is
    a failure, the fast path had not delivered and the fallback command
    was run and failed. *)
Theorem fallback_ordering {W : Type} {host : Host W}
        (st : state W) (w1 : W)
        (required : list string) (installed : gset string) (sti : state W) :
  venv_present st = false ->
  mkdir_parents (world st) (str (path_parent VENV_DIR)) = inr w1 ->
  missing_of required installed <> [] ->
  let missing := missing_of required installed in
  (forall st2,
      fast_path_fails venv_fast_cmd (creating w1 st) st2 ->
      exists r,
        run venv_fallback_cmd st2 = (Ok r, after_spawn venv_fallback_cmd st2)
        /\ ensure_venv st = (Ok (venv_answer r), after_spawn venv_fallback_cmd st2))
  /\ (forall msg st',
         ensure_venv st = (Ok (false, msg), st') ->
         exists st2 out,
           fast_path_fails venv_fast_cmd (creating w1 st) st2
           /\ run venv_fallback_cmd st2 = (Ok (false, out), st')
           /\ msg = "Failed to create venv: " +:+ out)
  /\ (forall st2,
         fast_path_fails (install_fast_cmd missing) (installing missing sti) st2 ->
         exists r,
           run (install_fallback_cmd missing) st2
           = (Ok r, after_spawn (install_fallback_cmd missing) st2)
           /\ install_missing_of required installed sti
              = (Ok (install_answer missing r),
                 after_spawn (install_fallback_cmd missing) st2))
  /\ (forall msg st',
         install_missing_of required installed sti = (Ok (false, msg), st') ->
         exists st2 out,
           fast_path_fails (install_fast_cmd missing) (installing missing sti) st2
           /\ run (install_fallback_cmd missing) st2 = (Ok (false, out), st')
           /\ msg = "Installation failed: " +:+ PyStr.last_chars 500 out).
Proof.
  intros Habsent Hmkdir Hmissing missing.
  pose proof (ensure_venv_creating st w1 Habsent Hmkdir) as Ev.
  pose proof (install_missing_some required installed sti Hmissing) as Ei.
  cbv zeta in Ei. fold missing in Ei. fold (installing missing sti) in Ei.
  repeat split.
  - intros st2 Hf.
    exists (outcome_of (fst (subprocess_run (world st2) venv_fallback_cmd))).
    split; [apply run_eq|].
    rewrite Ev, (fast_fails_fallback _ _ _ _ st2 Hf). apply venv_fallback_eq.
  - intros msg st' H. rewrite Ev in H.
    apply fallback_only_failure in H as (st2 & Hf & H); [|discriminate].
    rewrite venv_fallback_eq in H. injection H as Ha <-.
    apply venv_answer_failure in Ha as [Hok ->].
    exists st2, (snd (outcome_of (fst (subprocess_run (world st2) venv_fallback_cmd)))).
    split; [exact Hf|]. split; [|reflexivity].
    rewrite run_eq. now destruct (outcome_of _) as [ok out]; cbn in *; subst.
  - intros st2 Hf.
    exists (outcome_of (fst (subprocess_run (world st2) (install_fallback_cmd missing)))).
    split; [apply run_eq|].
    rewrite Ei, (fast_fails_fallback _ _ _ _ st2 Hf). apply pip_fallback_eq.
  - intros msg st' H. rewrite Ei in H.
    apply fallback_only_failure in H as (st2 & Hf & H); [|discriminate].
    rewrite pip_fallback_eq in H. injection H as Ha <-.
    apply install_answer_failure in Ha as [Hok ->].
    exists st2,
      (snd (outcome_of (fst (subprocess_run (world st2) (install_fallback_cmd missing))))).
    split; [exact Hf|]. split; [|reflexivity].
    rewrite run_eq. now destruct (outcome_of _) as [ok out]; cbn in *; subst.
Qed.

(** The theorem on a fresh machine where [uv] is found and fails: both
    operations succeed through their fallback. *)
Lemma fallback_ordering_witness :
  @venv_present _ fresh_linux start = false
  /\ @mkdir_parents _ fresh_linux [] "/home/ada/.spinel" = inr []
  /\ missing_of ["alpha>=1.0"; "beta"] {[ "alpha" ]} <> []
  /\ fst (@ensure_venv _ fresh_linux start) = Ok (true, "created with venv")
  /\ fst (@install_missing_of _ fresh_linux ["alpha>=1.0"; "beta"] {[ "alpha" ]} start)
     = Ok (true, "installed 1 packages with pip").
Proof.
  assert (H1 : @venv_present _ fresh_linux start = false) by reflexivity.
  assert (H2 : @mkdir_parents _ fresh_linux [] "/home/ada/.spinel" = inr [])
    by reflexivity.
  assert (H3 : missing_of ["alpha>=1.0"; "beta"] {[ "alpha" ]} <> [])
    by (vm_compute; discriminate).
  destruct (@fallback_ordering _ fresh_linux start [] ["alpha>=1.0"; "beta"]
              {[ "alpha" ]} start H1 H2 H3) as (Hv & _ & Hi & _).
  split; [exact H1|]. split; [exact H2|]. split; [exact H3|]. split.
  - destruct (Hv (@after_spawn _ fresh_linux
                    (@venv_fast_cmd _ fresh_linux "/usr/bin/uv")
                    (@creating _ fresh_linux [] start))) as (r & Hr & E).
    { right. exists "/usr/bin/uv", "uv: error". repeat split. }
    rewrite E. vm_compute in Hr. injection Hr as <-. reflexivity.
  - destruct (Hi (@after_spawn _ fresh_linux
                    (@install_fast_cmd _ fresh_linux ["beta"] "/usr/bin/uv")
                    (installing ["beta"] start))) as (r & Hr & E).
    { right. exists "/usr/bin/uv", "uv: error". repeat split. }
    rewrite E. vm_compute in Hr. injection Hr as <-. reflexivity.
Defined.

(** ** What [install_missing] installs *)

Section Install.

Context {W : Type} {host : Host W}.

Lemma missing_of_bare required installed :
  missing_of required installed
  = filter (fun pkg => bare_name pkg ∉ installed) required.
Proof.
  unfold missing_of. induction required as [|pkg required IH]; [reflexivity|].
  cbn [List.filter]. rewrite filter_cons, <- IH, normalize_bare_name.
  destruct (decide (bare_name pkg ∉ installed)) as [Hn|Hn].
  - now rewrite bool_decide_eq_false_2.
  - rewrite bool_decide_eq_true_2; [reflexivity|].
    now destruct (decide (bare_name pkg ∈ installed)).
Qed.

Lemma missing_of_empty required : missing_of required ∅ = required.
Proof.
  unfold missing_of. induction required as [|pkg required IH]; [reflexivity|].
  cbn [List.filter]. rewrite IH.
  rewrite bool_decide_eq_false_2; [reflexivity|]. apply not_elem_of_empty.
Qed.

Lemma spawned_app evs evs' :
  spawned (evs ++ evs') = (spawned evs ++ spawned evs')%list.
Proof.
  induction evs as [|[] evs IH]; cbn [spawned app]; [reflexivity| | |];
    now rewrite IH.
Qed.

Lemma install_missing_trace required installed (st st' : state W) r :
  install_missing_of required installed st = (r, st') ->
  let missing := missing_of required installed in
  exists evs,
    trace st' = (trace st ++ evs)%list
    /\ Forall (installs missing) (spawned evs)
    /\ (missing = [] -> evs = [])
    /\ (missing <> [] ->
        exists evs',
          evs = EvPrint ("Installing " +:+ PyStr.of_nat (length missing)
                         +:+ " missing packages...") :: evs'
          /\ spawned evs' <> []).
Proof.
  intros H missing.
  destruct (decide (missing = [])) as [E|Hne].
  - rewrite (install_missing_nothing _ _ _ E) in H. injection H as _ <-.
    exists []. rewrite app_nil_r. repeat split; [constructor|congruence].
  - pose proof (install_missing_some required installed st Hne) as Ei.
    cbv zeta in Ei. fold missing in Ei. rewrite Ei in H. clear Ei.
    rewrite fast_then_fallback in H.
    set (st1 := after_print _ st) in H.
    set (line := ("Installing " +:+ _)%string).
    assert (Hfb : forall st2 pre,
               trace st2 = (trace st ++ EvPrint line :: pre)%list ->
               Forall (installs missing) (spawned pre) ->
               pip_fallback get_pip missing st2 = (r, st') ->
               exists evs,
                 trace st' = (trace st ++ evs)%list
                 /\ Forall (installs missing) (spawned evs)
                 /\ (missing = [] -> evs = [])
                 /\ (missing <> [] ->
                     exists evs', evs = EvPrint line :: evs' /\ spawned evs' <> [])).
    { intros st2 pre Ht Hpre Hp. rewrite pip_fallback_eq in Hp.
      injection Hp as _ <-.
      exists (EvPrint line :: pre ++ [EvSpawn (install_fallback_cmd missing)]).
      assert (Hsp : spawned (pre ++ [EvSpawn (install_fallback_cmd missing)])
                    = (spawned pre ++ [install_fallback_cmd missing])%list).
      { apply spawned_app. }
      repeat split.
      - cbn [after_spawn trace]. rewrite Ht, <- app_assoc. reflexivity.
      - cbn [spawned]. rewrite Hsp. apply Forall_app. split; [exact Hpre|].
        constructor; [now left|constructor].
      - congruence.
      - intros _. eexists; split; [reflexivity|].
        rewrite Hsp. now destruct (spawned pre). }
    assert (Ht1 : trace st1 = (trace st ++ EvPrint line :: [])%list) by reflexivity.
    destruct (which (world st1) "uv") as [uv|];
      [destruct (PyStr.truthy uv)|];
      try (now apply (Hfb st1 []); [exact Ht1|constructor|exact H]).
    destruct (fst (outcome_of _)).
    + injection H as _ <-.
      exists [EvPrint line; EvSpawn (install_fast_cmd missing uv)].
      repeat split.
      * cbn [after_spawn trace]. rewrite Ht1, <- app_assoc. reflexivity.
      * constructor; [right; now exists uv|constructor].
      * congruence.
      * intros _. eexists; split; [reflexivity|]. discriminate.
    + apply (Hfb (after_spawn (install_fast_cmd missing uv) st1)
                 [EvSpawn (install_fast_cmd missing uv)]); [| |exact H].
      * cbn [after_spawn trace]. rewrite Ht1, <- app_assoc. reflexivity.
      * constructor; [right; now exists uv|constructor].
Qed.

End Install.

(** C3. The list [install_missing] computes is the list of requirements
    whose bare name (lower case, cut at the first comparator token,
    ['-'] and ['.'] made ['_']) is not in the installed set: the original
    declarations, in declaration order.  Every process the call creates
    is an install command whose package arguments are exactly that list,
    and at least one is created when the list is not empty.  With
    requirements ["alpha>=1.0"; "beta"] and installed set {"alpha"} the
    list is ["beta"], and both install commands run on a machine where
    [uv] fails name "beta" alone. *)
Theorem missing_classification {W : Type} {host : Host W}
        (required : list string) (installed : gset string) (st : state W) :
  let missing := missing_of required installed in
  missing = filter (fun pkg => bare_name pkg ∉ installed) required
  /\ (forall pkg, In pkg missing <-> In pkg required /\ bare_name pkg ∉ installed)
  /\ (exists evs,
         trace (snd (install_missing_of required installed st))
         = (trace st ++ evs)%list
         /\ Forall (installs missing) (spawned evs)
         /\ (missing <> [] -> spawned evs <> []))
  /\ missing_of ["alpha>=1.0"; "beta"] {[ "alpha" ]} = ["beta"]
  /\ spawned (trace (snd (@install_missing_of _ fresh_linux
                            ["alpha>=1.0"; "beta"] {[ "alpha" ]} start)))
     = [ ["/usr/bin/uv"; "pip"; "install"; "--python";
          "/home/ada/.spinel/venv/bin/python"; "beta"];
         ["/home/ada/.spinel/venv/bin/pip"; "install"; "beta"] ].
Proof.
  intros missing. split; [apply missing_of_bare|]. split.
  { intros pkg. unfold missing. rewrite missing_of_In, normalize_bare_name.
    reflexivity. }
  split; [|split; vm_compute; reflexivity].
  destruct (install_missing_of required installed st) as [r st'] eqn:E.
  destruct (install_missing_trace _ _ _ _ _ E) as (evs & Ht & Hall & _ & Hsome).
  exists evs. split; [exact Ht|]. split; [exact Hall|].
  intros Hne. destruct (Hsome Hne) as (evs' & -> & Hsp). exact Hsp.
Qed.

(** C4. When the bare name of every requirement is in the installed
    set, [install_missing] returns [(True, "all packages installed")]
    and the machine and the trace are as before the call: no command is
    run and nothing is printed. *)
Theorem reconcile_noop {W : Type} {host : Host W}
        (required : list string) (installed : gset string) (st : state W) :
  Forall (fun pkg => bare_name pkg ∈ installed) required ->
  missing_of required installed = []
  /\ install_missing_of required installed st
     = (Ok (true, "all packages installed"), st).
Proof.
  intros Hall.
  assert (E : missing_of required installed = []).
  { apply missing_of_nil. intros pkg Hin.
    rewrite normalize_bare_name.
    exact (proj1 (List.Forall_forall _ _) Hall pkg Hin). }
  split; [exact E|]. now apply install_missing_nothing.
Qed.

(** The theorem at the requirements of the script, all installed. *)
Lemma reconcile_noop_witness :
  Forall (fun pkg => bare_name pkg ∈ all_keys) REQUIREMENTS
  /\ @install_missing _ fresh_linux all_keys start
     = (Ok (true, "all packages installed"), start).
Proof.
  assert (H : Forall (fun pkg => bare_name pkg ∈ all_keys) REQUIREMENTS).
  { apply (bool_decide_unpack _). vm_compute. exact I. }
  split; [exact H|].
  exact (proj2 (@reconcile_noop _ fresh_linux REQUIREMENTS all_keys start H)).
Defined.

(** ** Listing what is installed *)

Section Listing.

Context {W : Type} {host : Host W}.

Lemma check_installed_failed (st : state W) :
  failed (fst (subprocess_run (world st) list_cmd)) ->
  check_installed st = (Ok ∅, after_spawn list_cmd st).
Proof.
  intros Hf. destruct (run_failed list_cmd st Hf) as [out Hrun].
  unfold check_installed, bind. unfold list_cmd in Hrun. now rewrite Hrun.
Qed.

End Listing.

(** C6. When the listing command fails (it raises, or exits with a
    non-zero status), [check_installed] returns the empty set and does
    not raise.  Against the empty set every requirement is missing, and
    the install step that follows prints that it installs the 20
    requirements and runs at least one install command, each with the
    whole list of requirements as its package arguments. *)
Theorem listing_failure_fail_open {W : Type} {host : Host W} (st : state W) :
  failed (fst (subprocess_run (world st) list_cmd)) ->
  check_installed st = (Ok ∅, after_spawn list_cmd st)
  /\ missing_of REQUIREMENTS ∅ = REQUIREMENTS
  /\ exists evs,
       trace (snd (reconcile st))
       = (trace (after_spawn list_cmd st)
          ++ EvPrint "Installing 20 missing packages..." :: evs)%list
       /\ spawned evs <> []
       /\ Forall (installs REQUIREMENTS) (spawned evs).
Proof.
  intros Hf. pose proof (check_installed_failed st Hf) as Ec.
  split; [exact Ec|]. split; [apply missing_of_empty|].
  unfold reconcile, bind. rewrite Ec.
  destruct (install_missing ∅ (after_spawn list_cmd st)) as [r st'] eqn:E.
  destruct (install_missing_trace _ _ _ _ _ E) as (evs & Ht & Hall & _ & Hsome).
  rewrite missing_of_empty in Hall, Hsome.
  destruct Hsome as (evs' & -> & Hsp); [discriminate|].
  exists evs'. split; [exact Ht|]. split; [exact Hsp|exact Hall].
Qed.

(** The theorem on a machine where [pip] cannot be started. *)
Lemma listing_failure_fail_open_witness :
  failed (fst (@subprocess_run _ broken_pip_linux []
                 (@list_cmd _ broken_pip_linux)))
  /\ fst (@check_installed _ broken_pip_linux start) = Ok ∅.
Proof.
  assert (H : failed (fst (@subprocess_run _ broken_pip_linux []
                             (@list_cmd _ broken_pip_linux)))) by exact I.
  split; [exact H|].
  now rewrite (proj1 (@listing_failure_fail_open _ broken_pip_linux start H)).
Defined.

(** ** Reading the table of [pip list] *)

Section Parsing.

Context {W : Type} {host : Host W}.

Lemma canon_lower_canonical c :
  let k := canon_sep (PyStr.lower_char c) in
  negb (PyStr.is_upper k) && negb (Ascii.eqb k "-") && negb (Ascii.eqb k ".")
  = true.
Proof. destruct c as [[] [] [] [] [] [] [] []]; vm_compute; reflexivity. Qed.

Lemma installed_key_canonical token :
  canonical_key (installed_key token) = true.
Proof.
  rewrite installed_key_map.
  induction token as [|c token IH]; [reflexivity|].
  cbn [PyStr.lower map_chars canonical_key].
  now rewrite (canon_lower_canonical c), IH.
Qed.

(** The guard [if parts:] makes the indexing [parts[0]] safe. *)
Lemma add_line_ok installed line :
  exists installed',
    add_line installed line = Ok installed'
    /\ forall k, k ∈ installed' ->
                 k ∈ installed \/ exists token, k = installed_key token.
Proof.
  unfold add_line. destruct (PyStr.split_ws line) as [|token rest].
  - exists installed. split; [reflexivity|]. auto.
  - cbn. exists ({[ installed_key token ]} ∪ installed).
    split; [reflexivity|].
    intros k Hk. apply elem_of_union in Hk as [Hk|Hk]; [|now left].
    apply elem_of_singleton in Hk. right. now exists token.
Qed.

Lemma add_lines_ok lines : forall installed,
  exists installed',
    add_lines installed lines = Ok installed'
    /\ forall k, k ∈ installed' ->
                 k ∈ installed \/ exists token, k = installed_key token.
Proof.
  induction lines as [|line lines IH]; intros installed.
  - exists installed. split; [reflexivity|]. auto.
  - cbn [add_lines].
    destruct (add_line_ok installed line) as (mid & -> & Hmid).
    destruct (IH mid) as (final & -> & Hfinal).
    exists final. split; [reflexivity|].
    intros k Hk. destruct (Hfinal k Hk) as [Hin|Hkey]; [|now right].
    now apply Hmid.
Qed.

Lemma parse_listing_ok out :
  exists installed,
    parse_listing out = Ok installed
    /\ forall k, k ∈ installed -> canonical_key k = true.
Proof.
  unfold parse_listing.
  destruct (add_lines_ok (drop 2 (PyStr.split NL (PyStr.strip out))) ∅)
    as (installed & -> & H).
  exists installed. split; [reflexivity|].
  intros k Hk. destruct (H k Hk) as [Hin|[token ->]].
  - now apply not_elem_of_empty in Hin.
  - apply installed_key_canonical.
Qed.

End Parsing.

(** C10. [check_installed] returns for every output of the listing
    command, and never raises: skipping the two header lines and taking
    the first token of a line are safe on an empty text, on a text of
    fewer than three lines and on blank lines.  Every name in the set it
    returns is free of upper-case letters, of ['-'] and of ['.']. *)
Theorem check_installed_total {W : Type} {host : Host W} (st : state W) (out : string) :
  (exists installed,
      parse_listing out = Ok installed
      /\ forall k, k ∈ installed -> canonical_key k = true)
  /\ (exists installed,
         check_installed st = (Ok installed, after_spawn list_cmd st)
         /\ forall k, k ∈ installed -> canonical_key k = true)
  /\ parse_listing EmptyString = Ok ∅
  /\ parse_listing "Package Version" = Ok ∅
  /\ parse_listing ("Package Version" +:+ NL +:+ "------- -------" +:+ NL
                    +:+ "   " +:+ NL +:+ "Foo-Bar.baz   1.0" +:+ NL)
     = Ok {[ "foo_bar_baz" ]}.
Proof.
  split; [apply parse_listing_ok|]. split; [|repeat split; vm_compute; reflexivity].
  unfold check_installed, bind. rewrite run_eq.
  destruct (outcome_of _) as [[] text]; cbn [negb].
  - destruct (parse_listing_ok text) as (installed & E & H).
    exists installed. unfold lift. now rewrite E.
  - exists ∅. split; [reflexivity|]. intros k Hk.
    now apply not_elem_of_empty in Hk.
Qed.

(** ** The environment locator *)

Section Locator.

Context {W : Type} {host : Host W}.

Lemma join_with_snoc s l x :
  l <> [] -> join_with s (l ++ [x]) = join_with s l +:+ s +:+ x.
Proof.
  induction l as [|y l IH]; [congruence|]. intros _.
  destruct l as [|z l]; [reflexivity|].
  change (join_with s ((y :: z :: l) ++ [x]))
    with (y +:+ s +:+ join_with s ((z :: l) ++ [x])).
  rewrite IH by discriminate.
  change (join_with s (y :: z :: l)) with (y +:+ s +:+ join_with s (z :: l)).
  now rewrite !app_assoc_str.
Qed.

Lemma path_str_parts s p :
  parts p <> [] -> path_str s p = anchor p +:+ join_with s (parts p).
Proof.
  unfold path_str. destruct (parts p); [congruence|]. now destruct (anchor p).
Qed.

Lemma path_str_join s p x :
  parts p <> [] -> path_str s (p // x) = path_str s p +:+ s +:+ x.
Proof.
  intros Hp. rewrite (path_str_parts s p Hp), (path_str_parts s (p // x)).
  - cbn [path_join anchor parts].
    now rewrite join_with_snoc, app_assoc_str by assumption.
  - cbn [path_join parts]. now destruct (parts p).
Qed.

Lemma VENV_DIR_child x y :
  str (VENV_DIR // x // y) = str VENV_DIR +:+ sep +:+ x +:+ sep +:+ y.
Proof.
  unfold str. rewrite !path_str_join.
  - now rewrite !app_assoc_str.
  - unfold VENV_DIR, path_join. cbn. now destruct (parts home).
  - unfold VENV_DIR, path_join. cbn. now destruct (parts home).
Qed.

Lemma length_app_str a b :
  String.length (a +:+ b) = String.length a + String.length b.
Proof. induction a as [|c a IH]; [reflexivity|]. rewrite app_cons. cbn. lia. Qed.

Lemma drop_chars_app a b k :
  PyStr.drop_chars (String.length a + k) (a +:+ b) = PyStr.drop_chars k b.
Proof. induction a as [|c a IH]; [reflexivity|]. now rewrite app_cons. Qed.

Lemma last_chars_app n a b :
  n <= String.length b -> PyStr.last_chars n (a +:+ b) = PyStr.last_chars n b.
Proof.
  intros Hn. unfold PyStr.last_chars. rewrite length_app_str.
  replace (String.length a + String.length b - n)
    with (String.length a + (String.length b - n)) by lia.
  apply drop_chars_app.
Qed.

End Locator.

(** C8 (as the specification states it). On a Windows host the path
    the locator gives for the interpreter does not end in [.exe]. *)
Lemma get_python_windows_no_exe :
  @platform _ ready_windows = "win32"
  /\ @get_python _ ready_windows = "C:\Users\ada\.spinel\venv\Scripts\python"
  /\ PyStr.ends_with ".exe" (@get_python _ ready_windows) = false.
Proof. repeat split. Qed.

(** C8 (amended). The locator gives, under the base directory of the
    environment, [Scripts\python] and [Scripts\pip] when [sys.platform]
    is "win32" and [bin/python] and [bin/pip] on every other platform;
    on no platform does the interpreter path end in [.exe] (the suffix
    occurs only in the existence test of [ensure_venv]). *)
Theorem locator_paths {W : Type} {host : Host W} :
  let windows := String.eqb platform "win32" in
  get_python
  = str VENV_DIR +:+ (if windows then "\Scripts\python" else "/bin/python")
  /\ get_pip
     = str VENV_DIR +:+ (if windows then "\Scripts\pip" else "/bin/pip")
  /\ PyStr.ends_with ".exe" get_python = false.
Proof.
  intros windows.
  assert (Hpy : get_python
                = str VENV_DIR
                  +:+ (if windows then "\Scripts\python" else "/bin/python")).
  { unfold get_python. fold windows. rewrite !VENV_DIR_child.
    unfold sep. fold windows. now destruct windows. }
  split; [exact Hpy|]. split.
  - unfold get_pip. fold windows. rewrite !VENV_DIR_child.
    unfold sep. fold windows. now destruct windows.
  - rewrite Hpy. unfold PyStr.ends_with.
    destruct windows; rewrite last_chars_app by (cbn; lia); reflexivity.
Qed.

(** ** The credential validator *)

Section Credentials.

Context {W : Type} {host : Host W}.

(** [found] is the test "set, and not the empty text". *)
Lemma found_iff (v : option string) :
  found v = true <-> exists text, v = Some text /\ text <> EmptyString.
Proof.
  split.
  - destruct v as [[|c text]|]; try discriminate.
    intros _. now exists (String c text).
  - intros (text & -> & Hne). now destruct text.
Qed.

Lemma not_found_iff (v : option string) :
  found v = false <-> v = None \/ v = Some EmptyString.
Proof.
  split.
  - destruct v as [[|c text]|]; try discriminate; auto.
  - now intros [->| ->].
Qed.

Lemma check_api_keys_eq (st : state W) :
  check_api_keys st
  = (Ok (if found (environ_get (world st) "MP_API_KEY") then []
         else ["MP_API_KEY not set. Get a free key at https://next-gen.materialsproject.org "
               +:+ "(Dashboard → API Key), then: export MP_API_KEY=your_key"],
         if found (environ_get (world st) "NOMAD_TOKEN") then []
         else ["NOMAD_TOKEN not set (optional — needed only for private NOMAD data)"]),
     st).
Proof.
  unfold check_api_keys, bind, os_environ_get, ret.
  destruct (found (environ_get (world st) "MP_API_KEY"));
    destruct (found (environ_get (world st) "NOMAD_TOKEN")); reflexivity.
Qed.

End Credentials.

(** C9. [check_api_keys] reads the two variables and changes nothing.
    When [MP_API_KEY] is unset or empty there is exactly one issue, and
    its text contains "MP_API_KEY"; when it is set to a non-empty text
    there is none.  When [NOMAD_TOKEN] is unset or empty there is
    exactly one note, and its text contains "NOMAD_TOKEN"; when it is
    set to a non-empty text there is none.  Nothing but emptiness of the
    two values is inspected. *)
Theorem credential_classification {W : Type} {host : Host W} (st : state W) :
  exists issues notes,
    check_api_keys st = (Ok (issues, notes), st)
    /\ ((exists key, environ_get (world st) "MP_API_KEY" = Some key
                     /\ key <> EmptyString)
        -> issues = [])
    /\ (environ_get (world st) "MP_API_KEY" = None
        \/ environ_get (world st) "MP_API_KEY" = Some EmptyString
        -> exists issue,
            issues = [issue] /\ PyStr.contains "MP_API_KEY" issue = true)
    /\ ((exists token, environ_get (world st) "NOMAD_TOKEN" = Some token
                       /\ token <> EmptyString)
        -> notes = [])
    /\ (environ_get (world st) "NOMAD_TOKEN" = None
        \/ environ_get (world st) "NOMAD_TOKEN" = Some EmptyString
        -> exists note,
            notes = [note] /\ PyStr.contains "NOMAD_TOKEN" note = true).
Proof.
  rewrite check_api_keys_eq.
  eexists _, _. split; [reflexivity|].
  repeat split.
  - intros H. apply found_iff in H. now rewrite H.
  - intros H. apply not_found_iff in H. rewrite H.
    eexists. split; [reflexivity|]. vm_compute. reflexivity.
  - intros H. apply found_iff in H. now rewrite H.
  - intros H. apply not_found_iff in H. rewrite H.
    eexists. split; [reflexivity|]. vm_compute. reflexivity.
Qed.

(** ** Runs on concrete inputs *)

Example lower_ex : PyStr.lower "Dans_Diffraction" = "dans_diffraction".
Proof. reflexivity. Qed.

Example replace_ex : PyStr.replace "." "_" "impedance.py" = "impedance_py".
Proof. reflexivity. Qed.

Example split_ex : PyStr.split ">=" "ase>=3.22>=x" = ["ase"; "3.22"; "x"].
Proof. reflexivity. Qed.

Example split_overlap_ex : PyStr.split "==" "a===b" = ["a"; "=b"].
Proof. reflexivity. Qed.

Example strip_ex : PyStr.strip ("  a b" +:+ NL +:+ " ") = "a b".
Proof. reflexivity. Qed.

Example split_ws_ex : PyStr.split_ws "  numpy   1.26.4  " = ["numpy"; "1.26.4"].
Proof. reflexivity. Qed.

Example last_chars_ex :
  PyStr.last_chars 3 "abcdef" = "def" /\ PyStr.last_chars 9 "abc" = "abc".
Proof. split; reflexivity. Qed.

Example of_nat_ex : PyStr.of_nat 20 = "20" /\ PyStr.of_nat 0 = "0".
Proof. split; reflexivity. Qed.

Example normalize_ex :
  normalize "pymatgen>=2024.0.0" = "pymatgen"
  /\ normalize "ase>=3.22" = normalize "Ase"
  /\ normalize "impedance.py" = "impedance_py"
  /\ normalize "mp-api>=0.41.0" = "mp_api".
Proof. repeat split. Qed.

Example posix_paths_ex :
  @get_pip _ fresh_linux = "/home/ada/.spinel/venv/bin/pip"
  /\ @get_python _ fresh_linux = "/home/ada/.spinel/venv/bin/python".
Proof. split; reflexivity. Qed.

(** On a fresh machine where [uv] fails, the environment is created by
    the interpreter's own [venv] module after one attempt with [uv]. *)
Example ensure_venv_fresh_ex :
  @ensure_venv _ fresh_linux start
  = (Ok (true, "created with venv"),
     {| world := [ ["/usr/bin/python3"; "-m"; "venv"; "/home/ada/.spinel/venv"];
                   ["/usr/bin/uv"; "venv"; "/home/ada/.spinel/venv"] ];
        trace := [ EvPrint "Creating Spinel virtual environment at ~/.spinel/venv ...";
                   EvMkdir "/home/ada/.spinel";
                   EvSpawn ["/usr/bin/uv"; "venv"; "/home/ada/.spinel/venv"];
                   EvSpawn ["/usr/bin/python3"; "-m"; "venv";
                            "/home/ada/.spinel/venv"] ] |}).
Proof. vm_compute. reflexivity. Qed.

Example check_api_keys_ex :
  fst (@check_api_keys _ fresh_linux start) = Ok ([], [])
  /\ exists issue note,
       fst (@check_api_keys _ broken_pip_linux start) = Ok ([issue], [note]).
Proof. split; [reflexivity|]. eexists _, _. reflexivity. Qed.

(** * Further properties of the script *)

(** ** Keys of requirements *)

Section Keys.

Lemma lower_char_neutral : comparator_neutral PyStr.lower_char.
Proof.
  intros c x [->|[->| ->]];
    destruct c as [[] [] [] [] [] [] [] []]; reflexivity.
Qed.

Lemma canon_sep_neutral : comparator_neutral canon_sep.
Proof.
  intros c x [->|[->| ->]];
    destruct c as [[] [] [] [] [] [] [] []]; reflexivity.
Qed.

Lemma prefix_map_chars f a b s :
  comparator_neutral f ->
  b = "="%char ->
  a = "<"%char \/ a = ">"%char \/ a = "="%char ->
  String.prefix (String a (String b EmptyString)) (map_chars f s)
  = String.prefix (String a (String b EmptyString)) s.
Proof.
  intros Hf -> Ha. destruct s as [|c [|d s]]; cbn [map_chars].
  - reflexivity.
  - rewrite !prefix_cons. now rewrite (Hf c a Ha).
  - rewrite !prefix_cons, !prefix_nil.
    now rewrite (Hf c a Ha), (Hf d "="%char) by auto.
Qed.

Lemma starts_comparator_map f s :
  comparator_neutral f ->
  starts_comparator (map_chars f s) = starts_comparator s.
Proof.
  intros Hf. unfold starts_comparator.
  now rewrite !(prefix_map_chars f) by auto.
Qed.

Lemma truncate_map f s :
  comparator_neutral f ->
  truncate_at_comparator (map_chars f s)
  = map_chars f (truncate_at_comparator s).
Proof.
  intros Hf. induction s as [|c s IH]; [reflexivity|].
  change (map_chars f (String c s)) with (String (f c) (map_chars f s)).
  cbn [truncate_at_comparator].
  change (String (f c) (map_chars f s)) with (map_chars f (String c s)).
  rewrite (starts_comparator_map f) by assumption.
  destruct (starts_comparator (String c s)); [reflexivity|].
  cbn [map_chars]. now rewrite IH.
Qed.

Lemma starts_comparator_truncate c s :
  starts_comparator (String c s) = false ->
  starts_comparator (String c (truncate_at_comparator s)) = false.
Proof.
  destruct s as [|d s]; [auto|].
  cbn [truncate_at_comparator].
  destruct (starts_comparator (String d s)).
  - intros _. unfold starts_comparator. rewrite !prefix_cons.
    cbn [String.prefix]. now rewrite !andb_false_r.
  - unfold starts_comparator. now rewrite !prefix_cons, !prefix_nil.
Qed.

Lemma truncate_idempotent s :
  truncate_at_comparator (truncate_at_comparator s) = truncate_at_comparator s.
Proof.
  induction s as [|c s IH]; [reflexivity|].
  cbn [truncate_at_comparator].
  destruct (starts_comparator (String c s)) eqn:E; [reflexivity|].
  cbn [truncate_at_comparator].
  now rewrite (starts_comparator_truncate c s E), IH.
Qed.

Lemma key_char_idempotent c :
  canon_sep (PyStr.lower_char (canon_sep (PyStr.lower_char c)))
  = canon_sep (PyStr.lower_char c).
Proof. destruct c as [[] [] [] [] [] [] [] []]; reflexivity. Qed.

(** [normalize] cuts the text whose characters have been made lower
    case and canonical. *)
Lemma normalize_cut spec :
  normalize spec
  = truncate_at_comparator
      (map_chars (fun c => canon_sep (PyStr.lower_char c)) spec).
Proof.
  rewrite normalize_bare_name. unfold bare_name.
  rewrite <- (truncate_map canon_sep) by apply canon_sep_neutral.
  f_equal. clear. induction spec as [|c s IH]; [reflexivity|].
  cbn [PyStr.lower map_chars]. now rewrite IH.
Qed.

Lemma canonical_key_truncate s :
  canonical_key s = true -> canonical_key (truncate_at_comparator s) = true.
Proof.
  induction s as [|c s IH]; [reflexivity|].
  cbn [canonical_key truncate_at_comparator]. intros H.
  apply andb_true_iff in H as [Hc Hs].
  destruct (starts_comparator (String c s)); [reflexivity|].
  cbn [canonical_key]. now rewrite Hc, IH.
Qed.

End Keys.

(** X1. The key [normalize] gives for any requirement text holds no
    upper-case letter, no ['-'] and no ['.']: it is of the same form as
    the names [check_installed] stores. *)
Theorem normalize_canonical (spec : string) :
  canonical_key (normalize spec) = true.
Proof.
  rewrite normalize_cut. apply canonical_key_truncate.
  induction spec as [|c s IH]; [reflexivity|].
  cbn [map_chars canonical_key].
  now rewrite (canon_lower_canonical c), IH.
Qed.

(** X2. [normalize] is idempotent: a key is its own key. *)
Theorem normalize_idempotent (spec : string) :
  normalize (normalize spec) = normalize spec.
Proof.
  rewrite !normalize_cut.
  rewrite <- (truncate_map (fun c => canon_sep (PyStr.lower_char c))).
  - rewrite truncate_idempotent. f_equal.
    rewrite map_chars_compose. apply map_chars_ext, key_char_idempotent.
  - intros c x Hx.
    now rewrite (canon_sep_neutral _ x Hx), (lower_char_neutral _ x Hx).
Qed.

(** X3. A version constraint does not change the key: for a name
    without ['<'], ['>'], ['='], the requirement made of the name, one of
    the tokens [>=], [<=], [==] and any version text has the key of the
    name alone. *)
Theorem normalize_strips_version (name tok version : string) :
  no_comparator_char name = true ->
  In tok comparators ->
  normalize (name +:+ tok +:+ version) = normalize name.
Proof.
  intros Hname Htok.
  rewrite (normalize_plain name Hname).
  apply normalize_requirement; [exact Hname|].
  unfold requirement_of. apply orb_true_iff. right.
  apply existsb_exists. exists tok. split; [exact Htok|].
  rewrite <- app_assoc_str. clear.
  induction (name +:+ tok) as [|c s IH]; [apply prefix_nil|].
  rewrite app_cons, prefix_cons, Ascii.eqb_refl. exact IH.
Qed.

(** The theorem at "pymatgen>=2024.0.0". *)
Lemma normalize_strips_version_witness :
  no_comparator_char "pymatgen" = true
  /\ In ">=" comparators
  /\ normalize ("pymatgen" +:+ ">=" +:+ "2024.0.0") = normalize "pymatgen".
Proof.
  split; [reflexivity|]. split; [now left|].
  apply normalize_strips_version; [reflexivity|now left].
Defined.

(** ** Reading a well-formed table *)

Section Table.

Lemma rstrip_cons c s :
  PyStr.rstrip (String c s)
  = match PyStr.rstrip s with
    | EmptyString =>
        if PyStr.is_space c then EmptyString else String c EmptyString
    | r => String c r
    end.
Proof. reflexivity. Qed.

Lemma rstrip_visible s :
  starts_visible s = true -> PyStr.rstrip s <> EmptyString.
Proof.
  destruct s as [|c s]; [discriminate|]. cbn [starts_visible]. intros Hc.
  apply negb_true_iff in Hc. rewrite rstrip_cons, Hc.
  now destruct (PyStr.rstrip s).
Qed.

Lemma rstrip_app a b :
  PyStr.rstrip b <> EmptyString ->
  PyStr.rstrip (a +:+ b) = a +:+ PyStr.rstrip b.
Proof.
  intros Hb. induction a as [|c a IH]; [reflexivity|].
  rewrite !app_cons, rstrip_cons, IH.
  destruct (a +:+ PyStr.rstrip b) eqn:E; [|reflexivity].
  destruct a; [|discriminate]. now rewrite app_nil_l in E.
Qed.

Lemma rstrip_space_end s c :
  PyStr.is_space c = true ->
  PyStr.rstrip (s +:+ String c EmptyString) = PyStr.rstrip s.
Proof.
  intros Hc. induction s as [|d s IH].
  - rewrite app_nil_l, rstrip_cons. cbn [PyStr.rstrip]. now rewrite Hc.
  - now rewrite app_cons, !rstrip_cons, IH.
Qed.

Lemma unlines_visible l ls :
  starts_visible l = true -> starts_visible (unlines (l :: ls)) = true.
Proof. destruct l; [discriminate|]. auto. Qed.

Lemma one_line_rstrip s : one_line s = true -> one_line (PyStr.rstrip s) = true.
Proof.
  induction s as [|c s IH]; [reflexivity|].
  cbn [one_line]. intros H. apply andb_true_iff in H as [Hc Hs].
  rewrite rstrip_cons. specialize (IH Hs).
  destruct (PyStr.rstrip s) as [|d r].
  - destruct (PyStr.is_space c); [reflexivity|]. cbn [one_line]. now rewrite Hc.
  - cbn [one_line] in *. now rewrite Hc, IH.
Qed.

Lemma split_from_one_line s :
  one_line s = true -> PyStr.split_from NL 0 s = (s, []).
Proof.
  induction s as [|c s IH]; [reflexivity|].
  cbn [one_line]. intros H. apply andb_true_iff in H as [Hc Hs].
  cbn [PyStr.split_from]. unfold NL at 1. rewrite prefix_cons.
  apply negb_true_iff in Hc. rewrite Ascii.eqb_sym, Hc. cbn [andb].
  now rewrite (IH Hs).
Qed.

Lemma split_one_line s : one_line s = true -> PyStr.split NL s = [s].
Proof. intros H. unfold PyStr.split. now rewrite split_from_one_line. Qed.

Lemma split_line_break a b :
  one_line a = true -> PyStr.split NL (a +:+ NL +:+ b) = a :: PyStr.split NL b.
Proof.
  intros Ha. unfold PyStr.split.
  assert (H : PyStr.split_from NL 0 (a +:+ NL +:+ b)
              = (a, let '(f, fs) := PyStr.split_from NL 0 b in f :: fs)).
  { induction a as [|c a IH].
    - rewrite app_nil_l. unfold NL. rewrite app_cons, app_nil_l.
      cbn [PyStr.split_from]. rewrite prefix_cons, Ascii.eqb_refl, prefix_nil.
      cbn [andb String.length Nat.sub].
      now destruct (PyStr.split_from _ 0 b).
    - cbn [one_line] in Ha. apply andb_true_iff in Ha as [Hc Ha].
      rewrite app_cons. cbn [PyStr.split_from]. unfold NL at 1.
      rewrite prefix_cons. apply negb_true_iff in Hc.
      rewrite Ascii.eqb_sym, Hc. cbn [andb]. now rewrite (IH Ha). }
  now rewrite H.
Qed.

Lemma good_line_inv l :
  good_line l = true -> starts_visible l = true /\ one_line l = true.
Proof. apply andb_true_iff. Qed.

(** The lines of a text of good lines, once stripped. *)
Lemma split_rstrip_unlines ls : forall l,
  forallb good_line (l :: ls) = true ->
  PyStr.split NL (PyStr.rstrip (unlines (l :: ls))) = rstrip_last (l :: ls).
Proof.
  induction ls as [|l' ls IH]; intros l H.
  - cbn [forallb] in H. apply andb_true_iff in H as [Hl _].
    apply good_line_inv in Hl as [_ Hl].
    cbn [unlines rstrip_last]. rewrite app_nil_str.
    unfold NL. rewrite rstrip_space_end by reflexivity.
    apply split_one_line. now apply one_line_rstrip.
  - cbn [forallb] in H. apply andb_true_iff in H as [Hl Hrest].
    apply good_line_inv in Hl as [_ Hl].
    assert (Hv : PyStr.rstrip (unlines (l' :: ls)) <> EmptyString).
    { apply rstrip_visible, unlines_visible.
      cbn [forallb] in Hrest. apply andb_true_iff in Hrest as [Hl' _].
      now apply good_line_inv in Hl'. }
    change (unlines (l :: l' :: ls)) with (l +:+ NL +:+ unlines (l' :: ls)).
    rewrite rstrip_app.
    + rewrite (rstrip_app NL) by exact Hv.
      rewrite split_line_break by exact Hl.
      now rewrite (IH l' Hrest).
    + rewrite (rstrip_app NL) by exact Hv. discriminate.
Qed.

Lemma lstrip_visible s : starts_visible s = true -> PyStr.lstrip s = s.
Proof.
  destruct s as [|c s]; [discriminate|]. cbn [starts_visible PyStr.lstrip].
  intros H. apply negb_true_iff in H. now rewrite H.
Qed.

(** White space at the end of a line does not change its fields. *)
Lemma split_ws_from_rstrip s :
  PyStr.split_ws_from (PyStr.rstrip s) = PyStr.split_ws_from s.
Proof.
  induction s as [|c s IH]; [reflexivity|].
  rewrite rstrip_cons. cbn [PyStr.split_ws_from]. rewrite <- IH.
  destruct (PyStr.rstrip s) as [|d r]; [|reflexivity].
  destruct (PyStr.is_space c) eqn:E;
    cbn [PyStr.split_ws_from PyStr.push_field]; rewrite ?E; reflexivity.
Qed.

Lemma split_ws_rstrip s : PyStr.split_ws (PyStr.rstrip s) = PyStr.split_ws s.
Proof. unfold PyStr.split_ws. now rewrite split_ws_from_rstrip. Qed.

Lemma split_ws_row name rest :
  is_token name = true ->
  PyStr.split_ws (name +:+ " " +:+ rest) = name :: PyStr.split_ws rest.
Proof.
  unfold is_token. intros H. apply andb_true_iff in H as [Hne Hns].
  assert (E : PyStr.split_ws_from (name +:+ " " +:+ rest)
              = (name, PyStr.split_ws rest)).
  { clear Hne. induction name as [|c name IH].
    - rewrite app_nil_l, app_cons, app_nil_l. cbn [PyStr.split_ws_from].
      unfold PyStr.split_ws. now destruct (PyStr.split_ws_from rest).
    - cbn [no_space] in Hns. apply andb_true_iff in Hns as [Hc Hns].
      rewrite app_cons. cbn [PyStr.split_ws_from]. rewrite (IH Hns).
      apply negb_true_iff in Hc. now rewrite Hc. }
  unfold PyStr.split_ws at 1. rewrite E. now destruct name.
Qed.

End Table.

Section TableRows.

Lemma one_line_app a b :
  one_line (a +:+ b) = one_line a && one_line b.
Proof.
  induction a as [|c a IH]; [reflexivity|].
  rewrite app_cons. cbn [one_line]. now rewrite IH, andb_assoc.
Qed.

Lemma no_space_one_line s : no_space s = true -> one_line s = true.
Proof.
  induction s as [|c s IH]; [reflexivity|].
  cbn [no_space one_line]. intros H. apply andb_true_iff in H as [Hc Hs].
  rewrite (IH Hs), andb_true_r.
  destruct (Ascii.eqb_spec c (ascii_of_nat 10)) as [->|]; [discriminate|reflexivity].
Qed.

Lemma good_row_line row : good_row row = true -> good_line (row_line row) = true.
Proof.
  destruct row as [name rest]. unfold good_row, good_line, row_line, is_token.
  cbn [fst snd]. intros H.
  apply andb_true_iff in H as [H Hrest]. apply andb_true_iff in H as [Hne Hns].
  apply andb_true_iff. split.
  - destruct name as [|c name]; [discriminate|].
    cbn [no_space] in Hns. apply andb_true_iff in Hns as [Hc _].
    now rewrite app_cons.
  - rewrite !one_line_app, (no_space_one_line _ Hns), Hrest. reflexivity.
Qed.

Lemma forallb_good_rows rows :
  forallb good_row rows = true -> forallb good_line (map row_line rows) = true.
Proof.
  induction rows as [|row rows IH]; [reflexivity|].
  cbn [forallb map]. intros H. apply andb_true_iff in H as [Hr Hrs].
  now rewrite (good_row_line _ Hr), (IH Hrs).
Qed.

Lemma add_line_rstrip acc l : add_line acc (PyStr.rstrip l) = add_line acc l.
Proof. unfold add_line. now rewrite split_ws_rstrip. Qed.

Lemma add_lines_rstrip_last ls : forall acc,
  add_lines acc (rstrip_last ls) = add_lines acc ls.
Proof.
  induction ls as [|l ls IH]; intros acc; [reflexivity|].
  destruct ls as [|l' ls].
  - cbn [rstrip_last add_lines]. now rewrite add_line_rstrip.
  - change (rstrip_last (l :: l' :: ls)) with (l :: rstrip_last (l' :: ls)).
    cbn [add_lines]. destruct (add_line acc l); [apply IH|reflexivity].
Qed.

Lemma add_line_row acc row :
  good_row row = true ->
  add_line acc (row_line row) = Ok ({[ installed_key (fst row) ]} ∪ acc).
Proof.
  destruct row as [name rest]. unfold good_row, row_line. cbn [fst snd].
  intros H. apply andb_true_iff in H as [Hname _].
  unfold add_line. now rewrite (split_ws_row name rest Hname).
Qed.

Lemma add_lines_rows rows : forall acc,
  forallb good_row rows = true ->
  add_lines acc (map row_line rows)
  = Ok (list_to_set (map (fun row => installed_key (fst row)) rows) ∪ acc).
Proof.
  induction rows as [|row rows IH]; intros acc H.
  - cbn. f_equal. now rewrite union_empty_l_L.
  - cbn [forallb] in H. apply andb_true_iff in H as [Hr Hrs].
    cbn [map add_lines]. rewrite (add_line_row acc row Hr), (IH _ Hrs).
    f_equal. cbn [list_to_set].
    apply leibniz_equiv. intros k. rewrite !elem_of_union. tauto.
Qed.

End TableRows.

(** The lines of a well-formed table that remain after the header. *)
Lemma listing_lines (h1 h2 : string) (rows : list (string * string)) :
  good_line h1 = true ->
  good_line h2 = true ->
  forallb good_row rows = true ->
  drop 2 (PyStr.split NL (PyStr.strip (listing h1 h2 rows)))
  = rstrip_last (map row_line rows).
Proof.
  intros H1 H2 Hrows. unfold listing, PyStr.strip.
  pose proof (forallb_good_rows rows Hrows) as Hlines.
  rewrite lstrip_visible
    by (apply unlines_visible; now apply good_line_inv in H1).
  rewrite split_rstrip_unlines
    by (cbn [forallb]; now rewrite H1, H2, Hlines).
  now destruct (map row_line rows).
Qed.

(** X4. Reading back a table.  For a listing made of two header lines
    and rows "name, space, rest of line" (every line on one line, the
    headers starting with a visible character, every name a non-empty
    text without white space), the set [check_installed] builds is
    exactly the set of the keys of the names: the headers contribute
    nothing and every row contributes its name, whatever follows it. *)
Theorem parse_listing_rows (h1 h2 : string) (rows : list (string * string)) :
  good_line h1 = true ->
  good_line h2 = true ->
  forallb good_row rows = true ->
  parse_listing (listing h1 h2 rows)
  = Ok (list_to_set (map (fun row => installed_key (fst row)) rows)).
Proof.
  intros H1 H2 Hrows. unfold parse_listing.
  rewrite (listing_lines h1 h2 rows H1 H2 Hrows).
  rewrite add_lines_rstrip_last, (add_lines_rows rows ∅ Hrows).
  f_equal. apply union_empty_r_L.
Qed.

(** The theorem at a table as [pip] prints it. *)
Lemma parse_listing_rows_witness :
  good_line "Package         Version" = true
  /\ good_line "--------------- -------" = true
  /\ forallb good_row [("ase", "            3.22.1");
                       ("Dans-Diffraction", "3.1.0"); ("pip", "")] = true
  /\ parse_listing
       (listing "Package         Version" "--------------- -------"
          [("ase", "            3.22.1"); ("Dans-Diffraction", "3.1.0"); ("pip", "")])
     = Ok (list_to_set
             (map (fun row => installed_key (fst row))
                [("ase", "            3.22.1"); ("Dans-Diffraction", "3.1.0");
                 ("pip", "")])).
Proof.
  split; [reflexivity|]. split; [reflexivity|]. split; [reflexivity|].
  apply parse_listing_rows; reflexivity.
Defined.

(** ** The deficit *)

Section Deficit.

Lemma missing_of_cons pkg required installed :
  missing_of (pkg :: required) installed
  = if bool_decide (normalize pkg ∈ installed)
    then missing_of required installed
    else pkg :: missing_of required installed.
Proof. unfold missing_of. cbn [List.filter]. now destruct (bool_decide _). Qed.

End Deficit.

(** X5. The deficit shrinks when more is installed: for
    [installed ⊆ installed'], what is missing against [installed'] is a
    sub-list (same order) of what is missing against [installed]. *)
Theorem missing_of_monotone (required : list string) (installed installed' : gset string) :
  installed ⊆ installed' ->
  sublist (missing_of required installed') (missing_of required installed).
Proof.
  intros Hsub. induction required as [|pkg required IH]; [constructor|].
  rewrite !missing_of_cons.
  destruct (bool_decide (normalize pkg ∈ installed)) eqn:E.
  - apply bool_decide_eq_true in E.
    rewrite bool_decide_eq_true_2 by (apply Hsub, E). exact IH.
  - destruct (bool_decide (normalize pkg ∈ installed')).
    + now apply sublist_cons.
    + now apply sublist_skip.
Qed.

(** The theorem at the example of the specification, with "beta"
    installed as well. *)
Lemma missing_of_monotone_witness :
  ({[ "alpha" ]} : gset string) ⊆ {[ "alpha"; "beta" ]}
  /\ sublist (missing_of ["alpha>=1.0"; "beta"] {[ "alpha"; "beta" ]})
             (missing_of ["alpha>=1.0"; "beta"] {[ "alpha" ]}).
Proof.
  assert (H : ({[ "alpha" ]} : gset string) ⊆ {[ "alpha"; "beta" ]}).
  { apply (bool_decide_unpack _). vm_compute. exact I. }
  split; [exact H|]. now apply missing_of_monotone.
Defined.

(** X6. Installing the deficit settles the diff: once the keys of the
    missing requirements are in the installed set, nothing is missing
    any more, and [install_missing] then answers "all packages
    installed" without running a command. *)
Theorem missing_of_converges {W : Type} {host : Host W}
        (required : list string) (installed : gset string) (st : state W) :
  let installed' :=
    installed ∪ list_to_set (map normalize (missing_of required installed)) in
  missing_of required installed' = []
  /\ install_missing_of required installed' st
     = (Ok (true, "all packages installed"), st).
Proof.
  intros installed'.
  assert (E : missing_of required installed' = []).
  { apply missing_of_nil. intros pkg Hin. unfold installed'.
    apply elem_of_union.
    destruct (decide (normalize pkg ∈ installed)) as [|Hn]; [now left|right].
    apply elem_of_list_to_set, list_elem_of_In, in_map.
    now apply missing_of_In. }
  split; [exact E|]. now apply install_missing_nothing.
Qed.

(** ** The shape of a run *)

Section Shapes.

Context {W : Type} {host : Host W}.

Lemma spawned_map_spawn cmds : spawned (map EvSpawn cmds) = cmds.
Proof. induction cmds as [|cmd cmds IH]; cbn; [reflexivity|now rewrite IH]. Qed.

Lemma extends_refl (st : state W) : extends st st [].
Proof. unfold extends. now rewrite app_nil_r. Qed.

Lemma extends_trans (st1 st2 st3 : state W) evs evs' :
  extends st1 st2 evs -> extends st2 st3 evs' -> extends st1 st3 (evs ++ evs').
Proof. unfold extends. intros H1 H2. now rewrite H2, H1, app_assoc. Qed.

Lemma extends_spawn cmd (st : state W) : extends st (after_spawn cmd st) [EvSpawn cmd].
Proof. reflexivity. Qed.

Lemma extends_print line (st : state W) : extends st (after_print line st) [EvPrint line].
Proof. reflexivity. Qed.

(** Fast tool, then fallback: the result, and the one or two processes
    created, when the fallback consists of one run. *)
Lemma two_level_shape {A} (fast : string -> list string) (done_fast : A)
      (fallback : M W A) (fcmd : list string) (answer : bool * string -> A)
      (st0 : state W) :
  (forall st, fallback st
              = (Ok (answer (outcome_of (fst (subprocess_run (world st) fcmd)))),
                 after_spawn fcmd st)) ->
  exists r st' cmds,
    (do uv <- shutil_which "uv";
     if found uv then
       do '(ok, out) <- run (fast (default EmptyString uv));
       if ok then ret done_fast else fallback
     else fallback) st0 = (Ok r, st')
    /\ extends st0 st' (map EvSpawn cmds)
    /\ ((exists uv, cmds = [fast uv] /\ r = done_fast)
        \/ (exists uv out, cmds = [fast uv; fcmd] /\ r = answer out)
        \/ (exists out, cmds = [fcmd] /\ r = answer out)).
Proof.
  intros Hfb. rewrite fast_then_fallback.
  assert (Hdirect :
            exists r st' cmds,
              fallback st0 = (Ok r, st')
              /\ extends st0 st' (map EvSpawn cmds)
              /\ ((exists uv, cmds = [fast uv] /\ r = done_fast)
                  \/ (exists uv out, cmds = [fast uv; fcmd] /\ r = answer out)
                  \/ (exists out, cmds = [fcmd] /\ r = answer out))).
  { rewrite Hfb. eexists _, _, [fcmd]. split; [reflexivity|].
    split; [apply extends_spawn|]. right. right. eauto. }
  destruct (which (world st0) "uv") as [uv|]; [|exact Hdirect].
  destruct (PyStr.truthy uv); [|exact Hdirect].
  destruct (fst (outcome_of _)).
  - eexists _, _, [fast uv]. split; [reflexivity|].
    split; [apply extends_spawn|]. left. eauto.
  - rewrite Hfb. eexists _, _, [fast uv; fcmd]. split; [reflexivity|].
    split; [|right; left; eauto].
    apply (extends_trans st0 (after_spawn (fast uv) st0) _
             [EvSpawn (fast uv)] [EvSpawn fcmd]);
      apply extends_spawn.
Qed.

Lemma last_chars_length n s : String.length (PyStr.last_chars n s) <= n.
Proof.
  unfold PyStr.last_chars.
  assert (H : forall k t, String.length (PyStr.drop_chars k t) = String.length t - k).
  { induction k as [|k IH]; intros [|c t]; cbn; auto. }
  rewrite H. lia.
Qed.

Lemma last_chars_suffix n s : exists pre, s = pre +:+ PyStr.last_chars n s.
Proof.
  unfold PyStr.last_chars. generalize (String.length s - n) as k.
  intros k. revert s. induction k as [|k IH]; intros s.
  - now exists EmptyString.
  - destruct s as [|c s]; [now exists EmptyString|].
    destruct (IH s) as [pre E]. exists (String c pre).
    cbn [PyStr.drop_chars]. now rewrite app_cons, <- E.
Qed.

End Shapes.

Section Outcomes.

Context {W : Type} {host : Host W}.

Lemma ensure_venv_mkdir_raises (st : state W) e :
  venv_present st = false ->
  mkdir_parents (world st) (str (path_parent VENV_DIR)) = inl e ->
  ensure_venv st
  = (Raise e,
     after_print "Creating Spinel virtual environment at ~/.spinel/venv ..." st).
Proof.
  intros Ha Hm. rewrite (ensure_venv_absent st Ha).
  unfold bind at 1 2. unfold print, emit, mkdir. cbn [world trace].
  now rewrite Hm.
Qed.

Lemma creating_extends (st : state W) w1 :
  extends st (creating w1 st)
    [EvPrint "Creating Spinel virtual environment at ~/.spinel/venv ...";
     EvMkdir (str (path_parent VENV_DIR))].
Proof. reflexivity. Qed.

Lemma ensure_venv_created (st : state W) w1 :
  venv_present st = false ->
  mkdir_parents (world st) (str (path_parent VENV_DIR)) = inr w1 ->
  exists r st' cmds,
    ensure_venv st = (Ok r, st')
    /\ extends (creating w1 st) st' (map EvSpawn cmds)
    /\ ((exists uv, cmds = [venv_fast_cmd uv] /\ r = (true, "created with uv"))
        \/ (exists uv out, cmds = [venv_fast_cmd uv; venv_fallback_cmd]
                           /\ r = venv_answer out)
        \/ (exists out, cmds = [venv_fallback_cmd] /\ r = venv_answer out)).
Proof.
  intros Ha Hm. rewrite (ensure_venv_creating st w1 Ha Hm).
  apply (two_level_shape venv_fast_cmd (true, "created with uv") venv_fallback
           venv_fallback_cmd venv_answer).
  apply venv_fallback_eq.
Qed.

Lemma install_missing_installed required installed (st : state W) :
  missing_of required installed <> [] ->
  let missing := missing_of required installed in
  exists r st' cmds,
    install_missing_of required installed st = (Ok r, st')
    /\ extends (installing missing st) st' (map EvSpawn cmds)
    /\ ((exists uv, cmds = [install_fast_cmd missing uv]
                    /\ r = (true, "installed " +:+ PyStr.of_nat (length missing)
                                  +:+ " packages with uv"))
        \/ (exists uv out,
               cmds = [install_fast_cmd missing uv; install_fallback_cmd missing]
               /\ r = install_answer missing out)
        \/ (exists out, cmds = [install_fallback_cmd missing]
                        /\ r = install_answer missing out)).
Proof.
  intros Hne missing.
  pose proof (install_missing_some required installed st Hne) as E.
  cbv zeta in E. fold missing in E. rewrite E.
  apply (two_level_shape (install_fast_cmd missing) _ (pip_fallback get_pip missing)
           (install_fallback_cmd missing) (install_answer missing)).
  apply pip_fallback_eq.
Qed.

Lemma check_installed_returns (st : state W) :
  exists installed,
    check_installed st = (Ok installed, after_spawn list_cmd st).
Proof.
  unfold check_installed, bind. rewrite run_eq.
  destruct (outcome_of _) as [[] text]; cbn [negb].
  - destruct (parse_listing_ok text) as (installed & E & _).
    exists installed. unfold lift. now rewrite E.
  - now exists ∅.
Qed.

End Outcomes.

(** X7. What [ensure_venv] does when both existence tests answer that
    the interpreter is absent.  Either creating the parent directory
    raises, and that exception leaves [ensure_venv] after the
    announcement has been printed and before any process is created; or
    the directory is created and then one or two processes are run, each
    a command that creates the environment, and a pair is returned.  So
    no such run creates more than two processes, and none creates a
    process before the directory exists. *)
Theorem ensure_venv_outcomes {W : Type} {host : Host W} (st : state W) :
  let dir := str (path_parent VENV_DIR) in
  let line := "Creating Spinel virtual environment at ~/.spinel/venv ..." in
  venv_present st = false ->
  (exists e,
      mkdir_parents (world st) dir = inl e
      /\ ensure_venv st = (Raise e, after_print line st))
  \/ (exists w1 r st' cmds,
         mkdir_parents (world st) dir = inr w1
         /\ ensure_venv st = (Ok r, st')
         /\ extends st st' ([EvPrint line; EvMkdir dir] ++ map EvSpawn cmds)
         /\ Forall creates cmds
         /\ 1 <= length cmds <= 2).
Proof.
  intros dir line Hp.
  destruct (mkdir_parents (world st) dir) as [e|w1] eqn:Hm.
  { left. exists e. split; [reflexivity|].
    now apply ensure_venv_mkdir_raises. }
  right.
  destruct (ensure_venv_created st w1 Hp Hm) as (r & st' & cmds & E & Hext & Hc).
  exists w1, r, st', cmds. split; [reflexivity|]. split; [exact E|].
  split; [exact (extends_trans _ _ _ _ _ (creating_extends st w1) Hext)|].
  destruct Hc as [(uv & -> & _)|[(uv & out & -> & _)|(out & -> & _)]].
  - split; [|cbn; lia]. constructor; [right; now exists uv|constructor].
  - split; [|cbn; lia].
    constructor; [right; now exists uv|]. constructor; [now left|constructor].
  - split; [|cbn; lia]. constructor; [now left|constructor].
Qed.

(** The theorem on a fresh machine: the directory can be created, so a
    pair is returned. *)
Lemma ensure_venv_outcomes_witness :
  @venv_present _ fresh_linux start = false
  /\ exists r st', @ensure_venv _ fresh_linux start = (Ok r, st').
Proof.
  assert (Hp : @venv_present _ fresh_linux start = false) by reflexivity.
  split; [exact Hp|].
  destruct (@ensure_venv_outcomes _ fresh_linux start Hp)
    as [(e & Hm & _)|(w1 & r & st' & cmds & _ & E & _)].
  - discriminate Hm.
  - now exists r, st'.
Defined.

(** X8. In [ensure_venv] the fast tool short-circuits the fallback: when
    [uv] is found and its run exits with status zero, the answer is
    "created with uv" and that run is the only process created. *)
Theorem ensure_venv_fast_path {W : Type} {host : Host W}
        (st : state W) (w1 : W) (uv : string) (cp : CompletedProcess) :
  venv_present st = false ->
  mkdir_parents (world st) (str (path_parent VENV_DIR)) = inr w1 ->
  which w1 "uv" = Some uv ->
  PyStr.truthy uv = true ->
  fst (subprocess_run w1 (venv_fast_cmd uv)) = inr cp ->
  returncode cp = 0%Z ->
  ensure_venv st
  = (Ok (true, "created with uv"),
     after_spawn (venv_fast_cmd uv) (creating w1 st)).
Proof.
  intros Hp Hm Hw Ht Hrun Hcode.
  rewrite (ensure_venv_creating st w1 Hp Hm), fast_then_fallback.
  cbn [creating world]. rewrite Hw, Ht, Hrun. cbn [outcome_of fst].
  now rewrite Hcode.
Qed.

(** The theorem on a fresh machine with a working [uv]. *)
Lemma ensure_venv_fast_path_witness :
  @venv_present _ uv_linux start = false
  /\ @ensure_venv _ uv_linux start
     = (Ok (true, "created with uv"),
        @after_spawn _ uv_linux (@venv_fast_cmd _ uv_linux "/usr/bin/uv")
          (@creating _ uv_linux [] start)).
Proof.
  split; [reflexivity|].
  apply (@ensure_venv_fast_path _ uv_linux start [] "/usr/bin/uv"
           {| returncode := 0; stdout := "done"; stderr := EmptyString |});
    reflexivity.
Defined.

(** X9. In [install_missing] the fast tool short-circuits the fallback:
    when something is missing, [uv] is found and its run exits with
    status zero, the answer counts the missing requirements and names
    [uv], and that run is the only process created: [pip] is not run. *)
Theorem install_missing_fast_path {W : Type} {host : Host W}
        (required : list string) (installed : gset string) (st : state W)
        (uv : string) (cp : CompletedProcess) :
  let missing := missing_of required installed in
  missing <> [] ->
  which (world st) "uv" = Some uv ->
  PyStr.truthy uv = true ->
  fst (subprocess_run (world st) (install_fast_cmd missing uv)) = inr cp ->
  returncode cp = 0%Z ->
  install_missing_of required installed st
  = (Ok (true, "installed " +:+ PyStr.of_nat (length missing)
               +:+ " packages with uv"),
     after_spawn (install_fast_cmd missing uv) (installing missing st)).
Proof.
  intros missing Hne Hw Ht Hrun Hcode.
  pose proof (install_missing_some required installed st Hne) as E.
  cbv zeta in E. fold missing in E. rewrite E, fast_then_fallback.
  cbn [after_print world]. rewrite Hw, Ht.
  fold (installing missing st).
  change (world (installing missing st)) with (world st).
  rewrite Hrun. cbn [outcome_of fst]. now rewrite Hcode.
Qed.

(** The theorem at the example of the specification, on a machine with
    a working [uv]. *)
Lemma install_missing_fast_path_witness :
  missing_of ["alpha>=1.0"; "beta"] {[ "alpha" ]} <> []
  /\ fst (@install_missing_of _ uv_linux ["alpha>=1.0"; "beta"] {[ "alpha" ]} start)
     = Ok (true, "installed 1 packages with uv").
Proof.
  assert (H : missing_of ["alpha>=1.0"; "beta"] {[ "alpha" ]} <> [])
    by (vm_compute; discriminate).
  split; [exact H|].
  rewrite (@install_missing_fast_path _ uv_linux ["alpha>=1.0"; "beta"]
             {[ "alpha" ]} start "/usr/bin/uv"
             {| returncode := 0; stdout := "done"; stderr := EmptyString |}
             H eq_refl eq_refl eq_refl eq_refl).
  reflexivity.
Defined.

(** X10. The diagnostic of a failed installation is bounded.  When
    [install_missing] returns a failure, its message is "Installation
    failed: " followed by the last 500 characters of the output of the
    [pip] run (the whole output when it is shorter): the message never
    exceeds 521 characters, whatever [pip] printed. *)
Theorem install_failure_bounded {W : Type} {host : Host W}
        (required : list string) (installed : gset string)
        (st st' : state W) (msg : string) :
  install_missing_of required installed st = (Ok (false, msg), st') ->
  exists st2 out start_of_output,
    run (install_fallback_cmd (missing_of required installed)) st2
    = (Ok (false, out), st')
    /\ msg = "Installation failed: " +:+ PyStr.last_chars 500 out
    /\ out = start_of_output +:+ PyStr.last_chars 500 out
    /\ String.length (PyStr.last_chars 500 out) <= 500
    /\ String.length msg <= 521.
Proof.
  intros H.
  assert (Hne : missing_of required installed <> []).
  { intros E. rewrite (install_missing_nothing _ _ _ E) in H. discriminate. }
  pose proof (install_missing_some required installed st Hne) as E.
  cbv zeta in E. rewrite E in H. clear E.
  apply fallback_only_failure in H as (st2 & _ & H); [|discriminate].
  rewrite pip_fallback_eq in H. injection H as Ha <-.
  apply install_answer_failure in Ha as [Hok ->].
  set (o := outcome_of _) in *.
  destruct (last_chars_suffix 500 (snd o)) as [pre Hpre].
  exists st2, (snd o), pre.
  split; [rewrite run_eq; fold o; now destruct o as [ok out]; cbn in *; subst|].
  split; [reflexivity|]. split; [exact Hpre|].
  pose proof (last_chars_length 500 (snd o)) as Hlen.
  split; [exact Hlen|].
  rewrite length_app_str. cbn [String.length]. lia.
Qed.

(** The theorem on a machine without network, for one requirement. *)
Lemma install_failure_bounded_witness :
  @install_missing_of _ offline_linux ["beta"] ∅ start
  = (Ok (false, "Installation failed: ERROR: Could not find a version that satisfies the requirement"),
     {| world := [ ["/home/ada/.spinel/venv/bin/pip"; "install"; "beta"] ];
        trace := [ EvPrint "Installing 1 missing packages...";
                   EvSpawn ["/home/ada/.spinel/venv/bin/pip"; "install"; "beta"] ] |})
  /\ String.length
       "Installation failed: ERROR: Could not find a version that satisfies the requirement"
     <= 521.
Proof.
  assert (E : @install_missing_of _ offline_linux ["beta"] ∅ start
              = (Ok (false, "Installation failed: ERROR: Could not find a version that satisfies the requirement"),
                 {| world := [ ["/home/ada/.spinel/venv/bin/pip"; "install"; "beta"] ];
                    trace := [ EvPrint "Installing 1 missing packages...";
                               EvSpawn ["/home/ada/.spinel/venv/bin/pip"; "install";
                                        "beta"] ] |}))
    by (vm_compute; reflexivity).
  split; [exact E|].
  destruct (@install_failure_bounded _ offline_linux ["beta"] ∅ start _ _ E)
    as (st2 & out & pre & _ & _ & _ & _ & H).
  exact H.
Defined.

(** X11. On a host that is not Windows the existence test of
    [ensure_venv] and the locator agree: when the interpreter path that
    [get_python] gives exists, [ensure_venv] answers "venv exists"
    and does nothing. *)
Theorem ensure_venv_agrees_with_locator {W : Type} {host : Host W} (st : state W) :
  String.eqb platform "win32" = false ->
  path_exists (world st) get_python = true ->
  ensure_venv st = (Ok (true, "venv exists"), st).
Proof.
  intros Hplat Hex. apply ensure_venv_present.
  unfold venv_present. unfold get_python in Hex. rewrite Hplat in Hex.
  now rewrite Hex.
Qed.

(** The theorem on a Linux machine whose environment exists. *)
Lemma ensure_venv_agrees_with_locator_witness :
  String.eqb (@platform _ ready_linux) "win32" = false
  /\ @path_exists _ ready_linux [] (@get_python _ ready_linux) = true
  /\ @ensure_venv _ ready_linux start = (Ok (true, "venv exists"), start).
Proof.
  split; [reflexivity|]. split; [reflexivity|].
  apply (@ensure_venv_agrees_with_locator _ ready_linux start); reflexivity.
Defined.

(** X12. What [install_missing] can do.  It never raises.  Either
    nothing is missing and nothing happens; or it prints the number of
    missing requirements and then runs one or two install commands for
    exactly the missing list, and returns a pair. *)
Theorem install_missing_outcomes {W : Type} {host : Host W}
        (required : list string) (installed : gset string) (st : state W) :
  let missing := missing_of required installed in
  (missing = []
   /\ install_missing_of required installed st
      = (Ok (true, "all packages installed"), st))
  \/ (missing <> []
      /\ exists r st' cmds,
           install_missing_of required installed st = (Ok r, st')
           /\ extends st st'
                (EvPrint ("Installing " +:+ PyStr.of_nat (length missing)
                          +:+ " missing packages...") :: map EvSpawn cmds)
           /\ Forall (installs missing) cmds
           /\ 1 <= length cmds <= 2).
Proof.
  intros missing. destruct (decide (missing = [])) as [E|Hne].
  { left. split; [exact E|]. now apply install_missing_nothing. }
  right. split; [exact Hne|].
  destruct (install_missing_installed required installed st Hne)
    as (r & st' & cmds & E & Hext & Hc).
  fold missing in Hext, Hc.
  exists r, st', cmds. split; [exact E|].
  split.
  { exact (extends_trans _ _ _ [_] _ (extends_print _ st) Hext). }
  destruct Hc as [(uv & -> & _)|[(uv & out & -> & _)|(out & -> & _)]].
  - split; [|cbn; lia]. constructor; [right; now exists uv|constructor].
  - split; [|cbn; lia].
    constructor; [right; now exists uv|]. constructor; [now left|constructor].
  - split; [|cbn; lia]. constructor; [now left|constructor].
Qed.

(** ** The whole run *)

Section Main.

Context {W : Type} {host : Host W}.

Lemma report_eq status (st : state W) :
  report status st
  = (Ok tt, {| world := world st;
               trace := trace st ++ report_events status |}).
Proof.
  unfold report, bind, print, emit, report_events. cbn [world trace].
  now rewrite <- !app_assoc.
Qed.

Lemma main_raised (st st1 : state W) e :
  ensure_venv st = (Raise e, st1) -> main st = (Raise e, st1).
Proof. intros E. unfold main, bind. now rewrite E. Qed.

Lemma main_failed (st st1 : state W) msg :
  ensure_venv st = (Ok (false, msg), st1) ->
  main st
  = (Ok tt,
     after_print "  Try manually: python -m venv ~/.spinel/venv"
       (after_print ("✗ Venv setup failed: " +:+ msg) st1)).
Proof. intros E. unfold main, bind. now rewrite E. Qed.

Lemma check_api_keys_pure (st : state W) :
  exists issues notes,
    check_api_keys st = (Ok (issues, notes), st)
    /\ forall st', world st' = world st ->
                   check_api_keys st' = (Ok (issues, notes), st').
Proof.
  eexists _, _. split; [apply check_api_keys_eq|].
  intros st' Hw. now rewrite check_api_keys_eq, Hw.
Qed.

(** [main] once the environment is ready. *)
Lemma main_ready (st st1 st3 : state W) msg installed ok2 msg2 issues notes :
  ensure_venv st = (Ok (true, msg), st1) ->
  check_installed st1 = (Ok installed, after_spawn list_cmd st1) ->
  install_missing installed (after_spawn list_cmd st1) = (Ok (ok2, msg2), st3) ->
  check_api_keys st3 = (Ok (issues, notes), st3) ->
  main st
  = (Ok tt,
     {| world := world st3;
        trace :=
          trace st3
          ++ (if ok2 then []
              else [EvPrint ("⚠ Package installation issue: " +:+ msg2);
                    EvPrint ("  Try manually: " +:+ get_pip
                             +:+ " install pymatgen mp-api ase hyperspy")])
          ++ report_events
               (("✓ Venv: " +:+ msg)
                  :: (if ok2 then ["✓ Packages: " +:+ msg2] else [])
                  ++ credential_lines issues notes) |}).
Proof.
  intros Ev Ec Ei Ek. unfold main. unfold bind at 1. rewrite Ev. cbn [negb].
  unfold bind at 1. rewrite Ec. unfold bind at 1. rewrite Ei.
  destruct ok2; cbn [negb].
  - unfold bind at 1 2. unfold ret at 1. rewrite Ek. rewrite report_eq.
    cbn [app]. reflexivity.
  - unfold bind at 1 2 3. unfold print, emit, ret. cbn [world trace].
    unfold bind at 1.
    destruct (check_api_keys_pure st3) as (issues' & notes' & Ek' & Hpure).
    rewrite Ek in Ek'. injection Ek' as <- <-.
    rewrite Hpure by reflexivity. rewrite report_eq. cbn [world trace app].
    now rewrite <- !app_assoc.
Qed.

Lemma install_missing_spawns required installed (st : state W) :
  exists r st' evs,
    install_missing_of required installed st = (Ok r, st')
    /\ extends st st' evs
    /\ length (spawned evs) <= 2.
Proof.
  destruct (decide (missing_of required installed = [])) as [E|Hne].
  { eexists _, st, []. split; [now apply install_missing_nothing|].
    split; [apply extends_refl|cbn; lia]. }
  destruct (install_missing_installed required installed st Hne)
    as (r & st' & cmds & E & Hext & Hc).
  eexists r, st', (_ :: map EvSpawn cmds). split; [exact E|].
  split; [exact (extends_trans _ _ _ [_] _ (extends_print _ st) Hext)|].
  cbn [spawned]. rewrite spawned_map_spawn.
  destruct Hc as [(uv & -> & _)|[(uv & out & -> & _)|(out & -> & _)]]; cbn; lia.
Qed.

Lemma ensure_venv_spawns (st : state W) :
  exists evs,
    extends st (snd (ensure_venv st)) evs
    /\ Forall creates (spawned evs)
    /\ length (spawned evs) <= 2
    /\ ((exists r, fst (ensure_venv st) = Ok r)
        \/ (exists e, fst (ensure_venv st) = Raise e
                      /\ venv_present st = false
                      /\ mkdir_parents (world st) (str (path_parent VENV_DIR))
                         = inl e)).
Proof.
  destruct (venv_present st) eqn:Hp.
  { rewrite (ensure_venv_present st Hp). exists [].
    split; [apply extends_refl|]. split; [constructor|].
    split; [cbn; lia|]. left. eauto. }
  destruct (mkdir_parents (world st) (str (path_parent VENV_DIR))) as [e|w1] eqn:Hm.
  { rewrite (ensure_venv_mkdir_raises st e Hp Hm). eexists [_].
    split; [apply extends_print|]. split; [constructor|].
    split; [cbn; lia|]. right. eauto. }
  destruct (ensure_venv_created st w1 Hp Hm) as (r & st' & cmds & E & Hext & Hc).
  rewrite E. eexists (_ ++ map EvSpawn cmds)%list.
  split; [exact (extends_trans _ _ _ _ _ (creating_extends st w1) Hext)|].
  rewrite spawned_app, spawned_map_spawn. cbn [spawned app].
  split; [|split; [|left; eauto]].
  - destruct Hc as [(uv & -> & _)|[(uv & out & -> & _)|(out & -> & _)]].
    + constructor; [right; now exists uv|constructor].
    + constructor; [right; now exists uv|]. constructor; [now left|constructor].
    + constructor; [now left|constructor].
  - destruct Hc as [(uv & -> & _)|[(uv & out & -> & _)|(out & -> & _)]]; cbn; lia.
Qed.

End Main.

Section MainProcesses.

Context {W : Type} {host : Host W}.

(** The prints before the report and the report create no process. *)
Lemma main_ready_spawned (st st1 st3 : state W) msg installed ok2 msg2 issues notes :
  ensure_venv st = (Ok (true, msg), st1) ->
  check_installed st1 = (Ok installed, after_spawn list_cmd st1) ->
  install_missing installed (after_spawn list_cmd st1) = (Ok (ok2, msg2), st3) ->
  check_api_keys st3 = (Ok (issues, notes), st3) ->
  world (snd (main st)) = world st3
  /\ spawned (trace (snd (main st))) = spawned (trace st3).
Proof.
  intros Ev Ec Ei Ek.
  rewrite (main_ready st st1 st3 msg installed ok2 msg2 issues notes Ev Ec Ei Ek).
  cbn [snd world trace]. split; [reflexivity|].
  rewrite !spawned_app.
  assert (Hreport : forall status, spawned (report_events status) = [])
    by reflexivity.
  rewrite Hreport, app_nil_r.
  destruct ok2; cbn [spawned]; now rewrite app_nil_r.
Qed.

(** The processes of [install_missing]. *)
Lemma install_missing_commands required installed (st : state W) :
  let missing := missing_of required installed in
  exists cmds,
    spawned (trace (snd (install_missing_of required installed st)))
    = (spawned (trace st) ++ cmds)%list
    /\ Forall (installs missing) cmds
    /\ length cmds <= 2
    /\ (missing = [] -> cmds = [])
    /\ (missing <> [] -> cmds <> []).
Proof.
  intros missing. destruct (decide (missing = [])) as [E|Hne].
  { exists []. rewrite (install_missing_nothing _ _ st E). cbn [snd].
    rewrite app_nil_r. repeat split; [constructor|cbn; lia|congruence]. }
  destruct (install_missing_installed required installed st Hne)
    as (r & st' & cmds & E & Hext & Hc).
  fold missing in Hext, Hc. exists cmds. rewrite E. cbn [snd].
  split.
  { unfold extends in Hext. rewrite Hext. unfold installing, after_print.
    cbn [trace]. rewrite !spawned_app, spawned_map_spawn. cbn [spawned].
    now rewrite app_nil_r. }
  destruct Hc as [(uv & -> & _)|[(uv & out & -> & _)|(out & -> & _)]].
  - repeat split; [|cbn; lia|congruence|discriminate].
    constructor; [right; now exists uv|constructor].
  - repeat split; [|cbn; lia|congruence|discriminate].
    constructor; [right; now exists uv|]. constructor; [now left|constructor].
  - repeat split; [|cbn; lia|congruence|discriminate].
    constructor; [now left|constructor].
Qed.

(** The processes of [ensure_venv]. *)
Lemma ensure_venv_commands (st : state W) :
  exists cmds,
    spawned (trace (snd (ensure_venv st))) = (spawned (trace st) ++ cmds)%list
    /\ Forall creates cmds
    /\ length cmds <= 2.
Proof.
  destruct (ensure_venv_spawns st) as (evs & Hext & Hall & Hlen & _).
  exists (spawned evs). unfold extends in Hext.
  now rewrite Hext, spawned_app.
Qed.

End MainProcesses.

(** X13. A failed provisioning stops the run.  When [ensure_venv]
    returns a failure, [main] does nothing more to the machine: its
    state is the one [ensure_venv] left and no process is created after
    those of [ensure_venv], so there is no listing and no installation,
    and every process of the run is a command that creates the
    environment. *)
Theorem main_stops_after_failed_provisioning {W : Type} {host : Host W}
        (st st1 : state W) (msg : string) :
  ensure_venv st = (Ok (false, msg), st1) ->
  world (snd (main st)) = world st1
  /\ spawned (trace (snd (main st))) = spawned (trace st1)
  /\ exists cmds,
       spawned (trace (snd (main st))) = (spawned (trace st) ++ cmds)%list
       /\ Forall creates cmds
       /\ length cmds <= 2.
Proof.
  intros E. rewrite (main_failed st st1 msg E).
  cbn [snd after_print world trace].
  assert (Hs : spawned ((trace st1 ++ [EvPrint ("✗ Venv setup failed: " +:+ msg)])
                        ++ [EvPrint "  Try manually: python -m venv ~/.spinel/venv"])
               = spawned (trace st1)).
  { rewrite !spawned_app. cbn [spawned]. now rewrite !app_nil_r. }
  split; [reflexivity|]. split; [exact Hs|].
  destruct (ensure_venv_commands st) as (cmds & Hc & Hall & Hlen).
  rewrite E in Hc. cbn [snd] in Hc.
  exists cmds. now rewrite Hs.
Qed.

(** The theorem on a machine without the environment on which every
    command fails. *)
Lemma main_stops_after_failed_provisioning_witness :
  @ensure_venv _ broken_venv_linux start
  = (Ok (false, "Failed to create venv: Error: ensurepip is not available"),
     {| world := [ ["/usr/bin/python3"; "-m"; "venv"; "/home/ada/.spinel/venv"] ];
        trace := [ EvPrint "Creating Spinel virtual environment at ~/.spinel/venv ...";
                   EvMkdir "/home/ada/.spinel";
                   EvSpawn ["/usr/bin/python3"; "-m"; "venv";
                            "/home/ada/.spinel/venv"] ] |})
  /\ spawned (trace (snd (@main _ broken_venv_linux start)))
     = [ ["/usr/bin/python3"; "-m"; "venv"; "/home/ada/.spinel/venv"] ].
Proof.
  assert (E : @ensure_venv _ broken_venv_linux start
              = (Ok (false, "Failed to create venv: Error: ensurepip is not available"),
                 {| world := [ ["/usr/bin/python3"; "-m"; "venv";
                                "/home/ada/.spinel/venv"] ];
                    trace := [ EvPrint "Creating Spinel virtual environment at ~/.spinel/venv ...";
                               EvMkdir "/home/ada/.spinel";
                               EvSpawn ["/usr/bin/python3"; "-m"; "venv";
                                        "/home/ada/.spinel/venv"] ] |}))
    by (vm_compute; reflexivity).
  split; [exact E|].
  destruct (@main_stops_after_failed_provisioning _ broken_venv_linux start _ _ E)
    as (_ & Hs & _).
  rewrite Hs. reflexivity.
Defined.

(** X14. The processes of a run.  [main] creates at most five
    processes: first at most two commands that create the environment,
    then either nothing more, or the listing command followed by at
    most two install commands. *)
Theorem main_is_bounded {W : Type} {host : Host W} (st : state W) :
  exists creation rest,
    spawned (trace (snd (main st)))
    = (spawned (trace st) ++ creation ++ rest)%list
    /\ Forall creates creation
    /\ length creation <= 2
    /\ (rest = []
        \/ exists installed cmds,
             rest = list_cmd :: cmds
             /\ Forall (installs (missing_of REQUIREMENTS installed)) cmds
             /\ length cmds <= 2)
    /\ length (creation ++ rest) <= 5.
Proof.
  destruct (ensure_venv_commands st) as (creation & Hc & Hall & Hlen).
  destruct (ensure_venv st) as [[[ok msg]|e] st1] eqn:E; cbn [snd] in Hc.
  2:{ exists creation, []. rewrite (main_raised st st1 e E). cbn [snd].
      rewrite app_nil_r. repeat split; auto; lia. }
  destruct ok.
  2:{ exists creation, [].
      assert (Hs : spawned (trace (snd (main st))) = spawned (trace st1)).
      { rewrite (main_failed st st1 msg E). cbn [snd after_print world trace].
        rewrite !spawned_app. cbn [spawned]. now rewrite !app_nil_r. }
      rewrite Hs, Hc, app_nil_r. repeat split; auto; lia. }
  destruct (check_installed_returns st1) as [installed Ec].
  destruct (install_missing_commands REQUIREMENTS installed (after_spawn list_cmd st1))
    as (cmds & Hi & Hinst & Hlen2 & _).
  destruct (install_missing_spawns REQUIREMENTS installed (after_spawn list_cmd st1))
    as ([ok2 msg2] & st3 & evs3 & Ei & _ & _).
  destruct (check_api_keys_pure st3) as (issues & notes & Ek & _).
  destruct (main_ready_spawned st st1 st3 msg installed ok2 msg2 issues notes
              E Ec Ei Ek) as [_ Hs].
  rewrite Ei in Hi. cbn [snd after_spawn trace] in Hi.
  rewrite spawned_app in Hi. cbn [spawned] in Hi.
  exists creation, (list_cmd :: cmds).
  split.
  { rewrite Hs, Hi, Hc. now rewrite <- !app_assoc. }
  split; [exact Hall|]. split; [exact Hlen|].
  split; [right; exists installed, cmds; auto|].
  rewrite length_app. cbn [length]. lia.
Qed.

(** X15. The processes of a run once the environment is ready.  After
    [ensure_venv] has succeeded, [main] runs the listing command and
    then the install commands for the requirements missing from what the
    listing shows: none when nothing is missing, one or two otherwise,
    each for exactly the missing list.  No other process is created. *)
Theorem main_reconciles_after_provisioning {W : Type} {host : Host W}
        (st st1 : state W) (msg : string) :
  ensure_venv st = (Ok (true, msg), st1) ->
  exists installed cmds,
    check_installed st1 = (Ok installed, after_spawn list_cmd st1)
    /\ spawned (trace (snd (main st)))
       = (spawned (trace st1) ++ list_cmd :: cmds)%list
    /\ Forall (installs (missing_of REQUIREMENTS installed)) cmds
    /\ length cmds <= 2
    /\ (missing_of REQUIREMENTS installed = [] -> cmds = [])
    /\ (missing_of REQUIREMENTS installed <> [] -> cmds <> []).
Proof.
  intros E.
  destruct (check_installed_returns st1) as [installed Ec].
  destruct (install_missing_commands REQUIREMENTS installed (after_spawn list_cmd st1))
    as (cmds & Hi & Hinst & Hlen2 & Hnone & Hsome).
  destruct (install_missing_spawns REQUIREMENTS installed (after_spawn list_cmd st1))
    as ([ok2 msg2] & st3 & evs3 & Ei & _ & _).
  destruct (check_api_keys_pure st3) as (issues & notes & Ek & _).
  destruct (main_ready_spawned st st1 st3 msg installed ok2 msg2 issues notes
              E Ec Ei Ek) as [_ Hs].
  rewrite Ei in Hi. cbn [snd after_spawn trace] in Hi.
  rewrite spawned_app in Hi. cbn [spawned] in Hi.
  exists installed, cmds. split; [exact Ec|].
  split; [rewrite Hs, Hi; now rewrite <- app_assoc|].
  auto.
Qed.

(** The theorem on a machine without network, where the listing shows
    [pip] alone: install commands are run. *)
Lemma main_reconciles_after_provisioning_witness :
  @ensure_venv _ offline_linux start = (Ok (true, "venv exists"), start)
  /\ exists cmds,
       spawned (trace (snd (@main _ offline_linux start)))
       = @list_cmd _ offline_linux :: cmds.
Proof.
  assert (E : @ensure_venv _ offline_linux start
              = (Ok (true, "venv exists"), start)) by reflexivity.
  split; [exact E|].
  destruct (@main_reconciles_after_provisioning _ offline_linux start start
              "venv exists" E)
    as (installed & cmds & _ & Hs & _).
  exists cmds. exact Hs.
Defined.

(** X16. The steady state costs one process.  When the environment
    exists and the listing succeeds and shows the key of every
    requirement, the listing command is the only process that [main]
    creates, and the machine is left as that command left it. *)
Theorem main_steady_state {W : Type} {host : Host W}
        (st : state W) (cp : CompletedProcess) (installed : gset string) :
  venv_present st = true ->
  fst (subprocess_run (world st) list_cmd) = inr cp ->
  returncode cp = 0%Z ->
  parse_listing (stdout cp +:+ stderr cp) = Ok installed ->
  Forall (fun pkg => bare_name pkg ∈ installed) REQUIREMENTS ->
  spawned (trace (snd (main st))) = (spawned (trace st) ++ [list_cmd])%list
  /\ world (snd (main st)) = snd (subprocess_run (world st) list_cmd).
Proof.
  intros Hp Hrun Hcode Hparse Hall.
  pose proof (ensure_venv_present st Hp) as Ev.
  assert (Ec : check_installed st = (Ok installed, after_spawn list_cmd st)).
  { unfold check_installed, bind. rewrite run_eq.
    fold list_cmd. rewrite Hrun. cbn [outcome_of]. rewrite Hcode.
    cbn [Z.eqb negb]. unfold lift. now rewrite Hparse. }
  assert (Ei : install_missing installed (after_spawn list_cmd st)
               = (Ok (true, "all packages installed"), after_spawn list_cmd st)).
  { apply install_missing_nothing, missing_of_nil. intros pkg Hin.
    rewrite normalize_bare_name.
    exact (proj1 (List.Forall_forall _ _) Hall pkg Hin). }
  destruct (check_api_keys_pure (after_spawn list_cmd st))
    as (issues & notes & Ek & _).
  destruct (main_ready_spawned st st (after_spawn list_cmd st) "venv exists"
              installed true "all packages installed" issues notes Ev Ec Ei Ek)
    as [Hw Hs].
  rewrite Hs, Hw. cbn [after_spawn world trace].
  split; [|reflexivity]. now rewrite spawned_app.
Qed.

(** The theorem on a machine in its steady state. *)
Lemma main_steady_state_witness :
  @venv_present _ settled_linux start = true
  /\ parse_listing
       (listing "Package Version" "------- -------"
          (map (fun pkg => (normalize pkg, "1.0")) REQUIREMENTS) +:+ EmptyString)
     = Ok all_keys
  /\ Forall (fun pkg => bare_name pkg ∈ all_keys) REQUIREMENTS
  /\ spawned (trace (snd (@main _ settled_linux start)))
     = [ ["/home/ada/.spinel/venv/bin/pip"; "list"; "--format=columns"] ].
Proof.
  assert (Hparse : parse_listing
                     (listing "Package Version" "------- -------"
                        (map (fun pkg => (normalize pkg, "1.0")) REQUIREMENTS)
                      +:+ EmptyString)
                   = Ok all_keys) by (vm_compute; reflexivity).
  assert (Hall : Forall (fun pkg => bare_name pkg ∈ all_keys) REQUIREMENTS).
  { apply (bool_decide_unpack _). vm_compute. exact I. }
  split; [reflexivity|]. split; [exact Hparse|]. split; [exact Hall|].
  rewrite (proj1 (@main_steady_state _ settled_linux start
             {| returncode := 0;
                stdout := listing "Package Version" "------- -------"
                            (map (fun pkg => (normalize pkg, "1.0")) REQUIREMENTS);
                stderr := EmptyString |}
             all_keys eq_refl eq_refl eq_refl Hparse Hall)).
  reflexivity.
Defined.

(** ** More on the listing *)

Section Streams.

Lemma unlines_app ls ls' : unlines (ls ++ ls') = unlines ls +:+ unlines ls'.
Proof.
  induction ls as [|l ls IH]; [reflexivity|].
  cbn [app unlines]. now rewrite IH, !app_assoc_str.
Qed.

Lemma listing_app h1 h2 rows rows' :
  listing h1 h2 rows +:+ unlines (map row_line rows')
  = listing h1 h2 (rows ++ rows').
Proof.
  unfold listing. rewrite map_app.
  change (h1 :: h2 :: map row_line rows ++ map row_line rows')
    with ((h1 :: h2 :: map row_line rows) ++ map row_line rows')%list.
  now rewrite unlines_app.
Qed.

Lemma forallb_app_true {A} (f : A -> bool) l l' :
  forallb f l = true -> forallb f l' = true -> forallb f (l ++ l') = true.
Proof. intros H H'. rewrite forallb_app. now rewrite H, H'. Qed.

Lemma lstrip_all_space ws s : all_space ws = true -> PyStr.lstrip (ws +:+ s) = PyStr.lstrip s.
Proof.
  induction ws as [|c ws IH]; [reflexivity|].
  cbn [all_space]. intros H. apply andb_true_iff in H as [Hc Hws].
  rewrite app_cons. cbn [PyStr.lstrip]. now rewrite Hc, IH.
Qed.

Lemma rstrip_all_space ws : forall s,
  all_space ws = true -> PyStr.rstrip (s +:+ ws) = PyStr.rstrip s.
Proof.
  induction ws as [|c ws IH]; intros s H.
  - now rewrite app_nil_str.
  - cbn [all_space] in H. apply andb_true_iff in H as [Hc Hws].
    change (String c ws) with (String c EmptyString +:+ ws).
    rewrite <- app_assoc_str, (IH _ Hws). now apply rstrip_space_end.
Qed.

Lemma strip_all_space_end s ws :
  all_space ws = true -> PyStr.strip (s +:+ ws) = PyStr.strip s.
Proof.
  intros H. unfold PyStr.strip. induction s as [|c s IH].
  - rewrite app_nil_l. rewrite <- (app_nil_str ws), (lstrip_all_space ws _ H).
    reflexivity.
  - rewrite app_cons. cbn [PyStr.lstrip].
    destruct (PyStr.is_space c); [exact IH|].
    rewrite <- app_cons. now apply rstrip_all_space.
Qed.

End Streams.

(** X17. Both streams are read.  Because [run] returns standard output
    followed by standard error, lines that [pip list] writes to standard
    error after a well-formed table are taken for rows: the set
    [check_installed] returns holds the keys of the package names and
    the key of the first word of every such line. *)
Theorem check_installed_reads_both_streams {W : Type} {host : Host W}
        (st : state W) (cp : CompletedProcess) (h1 h2 : string)
        (rows notices : list (string * string)) :
  fst (subprocess_run (world st) list_cmd) = inr cp ->
  returncode cp = 0%Z ->
  stdout cp = listing h1 h2 rows ->
  stderr cp = unlines (map row_line notices) ->
  good_line h1 = true ->
  good_line h2 = true ->
  forallb good_row rows = true ->
  forallb good_row notices = true ->
  check_installed st
  = (Ok (list_to_set (map (fun row => installed_key (fst row)) (rows ++ notices))),
     after_spawn list_cmd st).
Proof.
  intros Hrun Hcode Hout Herr H1 H2 Hrows Hnotices.
  unfold check_installed, bind. rewrite run_eq. fold list_cmd.
  rewrite Hrun. cbn [outcome_of]. rewrite Hcode. cbn [Z.eqb negb]. unfold lift.
  rewrite Hout, Herr, listing_app.
  pose proof (forallb_app_true _ _ _ Hrows Hnotices) as Hall.
  unfold parse_listing.
  rewrite (listing_lines h1 h2 (rows ++ notices) H1 H2 Hall).
  rewrite add_lines_rstrip_last, (add_lines_rows _ ∅ Hall).
  now rewrite union_empty_r_L.
Qed.

(** The theorem on a machine whose [pip] writes a notice to standard
    error: "warning:" is taken for an installed package. *)
Lemma check_installed_reads_both_streams_witness :
  forallb good_row [("ase", "3.22.1")] = true
  /\ forallb good_row [("WARNING:", "pip is old")] = true
  /\ fst (@check_installed _ noisy_pip_linux start)
     = Ok (list_to_set ["ase"; "warning:"]).
Proof.
  split; [reflexivity|]. split; [reflexivity|].
  rewrite (@check_installed_reads_both_streams _ noisy_pip_linux start
             {| returncode := 0;
                stdout := listing "Package Version" "------- -------"
                            [("ase", "3.22.1")];
                stderr := unlines [row_line ("WARNING:", "pip is old")] |}
             "Package Version" "------- -------"
             [("ase", "3.22.1")] [("WARNING:", "pip is old")]
             eq_refl eq_refl eq_refl eq_refl eq_refl eq_refl eq_refl eq_refl).
  reflexivity.
Defined.

(** X18. White space around the output does not matter: blank lines or
    spaces before the table and after it leave the result of the parse
    unchanged, because the text is stripped before the two header lines
    are skipped. *)
Theorem parse_listing_ignores_margins (before out after : string) :
  all_space before = true ->
  all_space after = true ->
  parse_listing (before +:+ out +:+ after) = parse_listing out.
Proof.
  intros Hb Ha. unfold parse_listing.
  rewrite <- app_assoc_str, (strip_all_space_end _ after Ha).
  unfold PyStr.strip. now rewrite (lstrip_all_space before out Hb).
Qed.

(** The theorem at a table between two blank lines. *)
Lemma parse_listing_ignores_margins_witness :
  all_space (NL +:+ " ") = true
  /\ all_space (NL +:+ NL) = true
  /\ parse_listing ((NL +:+ " ") +:+ listing "Package Version" "------- -------"
                                       [("ase", "3.22.1")] +:+ (NL +:+ NL))
     = parse_listing (listing "Package Version" "------- -------" [("ase", "3.22.1")]).
Proof.
  split; [reflexivity|]. split; [reflexivity|].
  apply parse_listing_ignores_margins; reflexivity.
Defined.

(** ** What [normalize] cuts and what it keeps *)

Section Cuts.

Lemma contains_cons sub c s :
  PyStr.contains sub (String c s)
  = String.prefix sub (String c s) || PyStr.contains sub s.
Proof. reflexivity. Qed.

Lemma no_token_truncate s :
  PyStr.contains ">=" s = false ->
  PyStr.contains "<=" s = false ->
  PyStr.contains "==" s = false ->
  truncate_at_comparator s = s.
Proof.
  induction s as [|c s IH]; [reflexivity|].
  rewrite !contains_cons. intros Hge Hle Hee.
  apply orb_false_iff in Hge as [Hge Hge'].
  apply orb_false_iff in Hle as [Hle Hle'].
  apply orb_false_iff in Hee as [Hee Hee'].
  cbn [truncate_at_comparator]. unfold starts_comparator.
  rewrite Hge, Hle, Hee. cbn [orb]. now rewrite IH.
Qed.

Lemma prefix_truncate_false a c s :
  starts_comparator (String c s) = false ->
  a = "<"%char \/ a = ">"%char \/ a = "="%char ->
  String.prefix (String a "=") (String c (truncate_at_comparator s)) = false.
Proof.
  intros Hs Ha. pose proof (starts_comparator_truncate c s Hs) as H.
  unfold starts_comparator in H.
  apply orb_false_iff in H as [H Hee]. apply orb_false_iff in H as [Hge Hle].
  destruct Ha as [->|[->| ->]]; assumption.
Qed.

Lemma truncate_no_token a s :
  a = "<"%char \/ a = ">"%char \/ a = "="%char ->
  PyStr.contains (String a "=") (truncate_at_comparator s) = false.
Proof.
  intros Ha. induction s as [|c s IH]; [reflexivity|].
  cbn [truncate_at_comparator].
  destruct (starts_comparator (String c s)) eqn:E; [reflexivity|].
  rewrite contains_cons, IH, (prefix_truncate_false a c s E Ha). reflexivity.
Qed.

End Cuts.

(** X19. [normalize] cuts at [>=], [<=] and [==] only.  A requirement in
    which none of these tokens occurs is kept whole (made lower case,
    separators canonical): its key is the one [check_installed] would
    store for the same text, and for an ASCII text it has the length of
    the text.  So a constraint written with another operator, as in
    "numpy~=1.26", stays in the key. *)
Theorem normalize_keeps_other_operators (spec : string) :
  PyStr.contains ">=" spec = false ->
  PyStr.contains "<=" spec = false ->
  PyStr.contains "==" spec = false ->
  normalize spec = installed_key spec
  /\ (is_ascii spec = true ->
      String.length (normalize spec) = String.length spec).
Proof.
  intros Hge Hle Hee.
  assert (E : normalize spec = installed_key spec).
  { rewrite normalize_cut, installed_key_map.
    rewrite (truncate_map (fun c => canon_sep (PyStr.lower_char c))).
    - rewrite (no_token_truncate spec Hge Hle Hee).
      clear. induction spec as [|c s IH]; [reflexivity|].
      cbn [PyStr.lower map_chars]. now rewrite IH.
    - intros c x Hx.
      now rewrite (canon_sep_neutral _ x Hx), (lower_char_neutral _ x Hx). }
  split; [exact E|]. intros _.
  rewrite E, installed_key_map. clear.
  induction spec as [|c s IH]; [reflexivity|].
  cbn [PyStr.lower map_chars String.length]. now rewrite IH.
Qed.

(** The theorem at a requirement with the operator [~=]. *)
Lemma normalize_keeps_other_operators_witness :
  PyStr.contains ">=" "numpy~=1.26" = false
  /\ PyStr.contains "<=" "numpy~=1.26" = false
  /\ PyStr.contains "==" "numpy~=1.26" = false
  /\ is_ascii "numpy~=1.26" = true
  /\ normalize "numpy~=1.26" = installed_key "numpy~=1.26"
  /\ String.length (normalize "numpy~=1.26") = String.length "numpy~=1.26".
Proof.
  split; [reflexivity|]. split; [reflexivity|]. split; [reflexivity|].
  split; [reflexivity|].
  destruct (normalize_keeps_other_operators "numpy~=1.26" eq_refl eq_refl eq_refl)
    as [E Hlen].
  split; [exact E|]. now apply Hlen.
Defined.

(** X20. No key holds a comparator token: in the result of [normalize]
    none of [>=], [<=], [==] occurs, whatever the requirement text. *)
Theorem normalize_has_no_comparator (spec : string) :
  PyStr.contains ">=" (normalize spec) = false
  /\ PyStr.contains "<=" (normalize spec) = false
  /\ PyStr.contains "==" (normalize spec) = false.
Proof.
  rewrite normalize_cut.
  repeat split; apply truncate_no_token; auto.
Qed.
